(** * The transition engine of the animated view controller

    A shallow embedding of the camera-transition engine of
    [src/rviz_animated_view_controller.cpp]: the queue of camera movements,
    the progress computation, and the operations that enqueue, advance,
    pause and cancel transitions.

    Conventions of the embedding.
    - The floating-point arithmetic of the code is a parameter, the class
      [Arithmetic]: a type for [Ogre::Real] (32-bit [float]), a type for
      [double], and the operations the code applies to them, with no law
      assumed.  What is proved for every [Arithmetic] holds of the code
      whatever its rounding, infinities and NaNs.  Two instances are given:
      [exact_arithmetic], the real numbers, and [ieee_arithmetic], IEEE 754
      binary32 and binary64 with the cosine of the C library as its argument.
    - [ros::Duration], [ros::WallDuration] and [ros::WallTime] hold an
      integral number of nanoseconds; they are integers ([Z]) counting
      nanoseconds.  The value of [toSec()] has the sign of the duration, and
      the tests of that sign are made on the exact value [toSec].
    - The wall clock is an input: every operation that reads
      [ros::WallTime::now()] takes the value read as its argument [now].
    - Calls on the camera and on the publishers are returned as a list of
      events next to the new controller state.
    - The [int] members are unbounded integers. *)

From Stdlib Require Import Reals Lra Lia ZArith List Bool SpecFloat.
Import ListNotations.

Open Scope R_scope.

(** ** The arithmetic of the code *)

Class Arithmetic : Type := {
  (** [Ogre::Real], a 32-bit [float], and [double]. *)
  Real : Type;
  Double : Type;
  (** An integer literal or [int] converted to [float]; [0.5f]; the minimum
      [0.01] of the distance property as a [float]. *)
  real_of_int : Z -> Real;
  real_half : Real;
  real_distance_min : Real;
  real_add : Real -> Real -> Real;
  real_sub : Real -> Real -> Real;
  real_mul : Real -> Real -> Real;
  real_sqrt : Real -> Real;
  real_gt : Real -> Real -> bool;
  (** An [int] converted to [double]; [Duration::toSec()] as the [double] it
      returns; [cos], [M_PI] and [M_PI_2]. *)
  double_of_int : Z -> Double;
  toSec_double : Z -> Double;
  double_add : Double -> Double -> Double;
  double_mul : Double -> Double -> Double;
  double_div : Double -> Double -> Double;
  double_neg : Double -> Double;
  double_cos : Double -> Double;
  M_PI : Double;
  M_PI_2 : Double;
  double_ge : Double -> Double -> bool;
  (** [static_cast<float>] of a [double]. *)
  real_of_double : Double -> Real
}.

(** ** Ogre::Vector3 *)

Module Vector3.
Section Vector3.
Context {A : Arithmetic}.

Record t : Type := mk { x : Real; y : Real; z : Real }.

Definition ZERO : t :=
  mk (real_of_int 0) (real_of_int 0) (real_of_int 0).
Definition UNIT_Z : t :=
  mk (real_of_int 0) (real_of_int 0) (real_of_int 1).

Definition add (a b : t) : t :=
  mk (real_add (x a) (x b)) (real_add (y a) (y b)) (real_add (z a) (z b)).
Definition sub (a b : t) : t :=
  mk (real_sub (x a) (x b)) (real_sub (y a) (y b)) (real_sub (z a) (z b)).
Definition scale (s : Real) (a : t) : t :=
  mk (real_mul s (x a)) (real_mul s (y a)) (real_mul s (z a)).
Definition length (a : t) : Real :=
  real_sqrt
    (real_add (real_add (real_mul (x a) (x a)) (real_mul (y a) (y a)))
       (real_mul (z a) (z a))).

End Vector3.
End Vector3.

Abbreviation Vec3 := Vector3.t.

(** ** ros::Duration and ros::WallTime, in nanoseconds *)

Definition Duration := Z.
Definition WallTime := Z.
Bind Scope Z_scope with Duration WallTime.

(** The exact value of [Duration::toSec()]. *)
Definition toSec (d : Duration) : R := IZR d / 1000000000.

(** [Duration::isZero()]: both [sec] and [nsec] are zero. *)
Definition isZero (d : Duration) : bool := (d =? 0)%Z.

(** [ros::Duration(0.001)]: one millisecond. *)
Definition Duration_0_001 : Duration := 1000000%Z.

(** ** Interpolation styles

    [view_controller_msgs::CameraMovement] declares the [uint8] constants
    [RISING], [DECLINING], [FULL] and [WAVE]; any other value of the
    [interpolation_speed] field takes the [default] branch of the switch. *)

Inductive InterpolationSpeed : Type :=
  | RISING
  | DECLINING
  | FULL
  | WAVE
  | Unrecognized (code : Z).

Section Progress.
Context {A : Arithmetic}.

(** [AnimatedViewController::computeRelativeProgressInSpace]: the cosine is
    taken in [double] and cast to [float]; the subtraction from [1.f] and the
    product with [0.5f] are [float] operations. *)
Definition computeRelativeProgressInSpace
    (relative_progress_in_time : Double)
    (interpolation_speed : InterpolationSpeed) : Real :=
  match interpolation_speed with
  | RISING =>
      real_sub (real_of_int 1)
        (real_of_double
           (double_cos (double_mul relative_progress_in_time M_PI_2)))
  | DECLINING =>
      real_of_double
        (double_neg
           (double_cos
              (double_add (double_mul relative_progress_in_time M_PI_2)
                 M_PI_2)))
  | FULL => real_of_double relative_progress_in_time
  | WAVE | Unrecognized _ =>
      real_mul real_half
        (real_sub (real_of_int 1)
           (real_of_double
              (double_cos (double_mul relative_progress_in_time M_PI))))
  end.

End Progress.

(** ** Camera movements and their buffer *)

Section Movement.
Context {A : Arithmetic}.

(** [OgreCameraMovement]: one requested endpoint of a movement. *)
Record OgreCameraMovement : Type := mkMovement {
  eye : Vec3;
  focus : Vec3;
  up : Vec3;
  transition_duration : Duration;
  interpolation_speed : InterpolationSpeed
}.

End Movement.

Module CircularBuffer.
Section CircularBuffer.
Context {A : Arithmetic}.

(** [boost::circular_buffer<OgreCameraMovement>]: the stored elements, oldest
    first, and the capacity. *)
Record t : Type :=
  mk { items : list OgreCameraMovement; capacity : nat }.

Definition size (b : t) : nat := length (items b).
Definition empty (b : t) : bool := Nat.eqb (size b) 0.
Definition full (b : t) : bool :=
  Nat.eqb (size b) (capacity b).

(** [push_back]: on a full buffer the oldest element is overwritten; on a
    buffer of capacity zero nothing is stored. *)
Definition push_back (m : OgreCameraMovement) (b : t) : t :=
  if full b then
    if empty b then b
    else mk (tl (items b) ++ [m]) (capacity b)
  else mk (items b ++ [m]) (capacity b).

(** [pop_front]: removes the oldest element. *)
Definition pop_front (b : t) : t :=
  mk (tl (items b)) (capacity b).

(** [clear]: removes every element, the capacity stays. *)
Definition clear (b : t) : t := mk [] (capacity b).

(** [set_capacity]: when the new capacity is below the size only the first
    [new_capacity] elements are kept. *)
Definition set_capacity (new_capacity : nat) (b : t) : t :=
  mk (firstn new_capacity (items b)) new_capacity.

End CircularBuffer.
End CircularBuffer.

Abbreviation Buffer := CircularBuffer.t.

Section Engine.
Context {A : Arithmetic}.

(** ** Calls on the collaborators

    The vector handed to [Ogre::Camera::setDirection] and
    [setFixedYawAxis] is recorded before the rotation by
    [reference_orientation_], which the controller applies to it; a rotation
    maps the zero vector, and only it, to the zero vector. *)
Inductive Event : Type :=
  | Sleep (d : Duration)
  | SetPosition (v : Vec3)
  | SetFixedYawAxis (use_fixed : bool) (axis : Vec3)
  | SetDirection (v : Vec3)
  | SetFocalShapePosition (v : Vec3)
  | PublishCameraPose (position : Vec3)
  | PublishViewImage
  | PublishFinishedAnimation.

(** ** The controller state

    The members of [AnimatedViewController] that the transition engine reads
    or writes. *)
Record Controller : Type := mkController {
  cam_movements_buffer_ : Buffer;
  animate_ : bool;
  render_frame_by_frame_ : bool;
  target_fps_ : Z;
  rendered_frames_counter_ : Z;
  pause_animation_duration_ : Duration;
  transition_start_time_ : WallTime;
  eye_point_property_ : Vec3;
  focus_point_property_ : Vec3;
  up_vector_property_ : Vec3;
  fixed_up_property_ : bool;
  publish_view_images_property_ : bool
}.

Definition set_buffer (b : Buffer) (c : Controller) : Controller :=
  mkController b (animate_ c) (render_frame_by_frame_ c) (target_fps_ c)
    (rendered_frames_counter_ c) (pause_animation_duration_ c)
    (transition_start_time_ c) (eye_point_property_ c)
    (focus_point_property_ c) (up_vector_property_ c) (fixed_up_property_ c)
    (publish_view_images_property_ c).

Definition set_animate (a : bool) (c : Controller) : Controller :=
  mkController (cam_movements_buffer_ c) a (render_frame_by_frame_ c)
    (target_fps_ c) (rendered_frames_counter_ c) (pause_animation_duration_ c)
    (transition_start_time_ c) (eye_point_property_ c)
    (focus_point_property_ c) (up_vector_property_ c) (fixed_up_property_ c)
    (publish_view_images_property_ c).

Definition set_render_frame_by_frame (f : bool) (c : Controller) : Controller :=
  mkController (cam_movements_buffer_ c) (animate_ c) f (target_fps_ c)
    (rendered_frames_counter_ c) (pause_animation_duration_ c)
    (transition_start_time_ c) (eye_point_property_ c)
    (focus_point_property_ c) (up_vector_property_ c) (fixed_up_property_ c)
    (publish_view_images_property_ c).

Definition set_target_fps (n : Z) (c : Controller) : Controller :=
  mkController (cam_movements_buffer_ c) (animate_ c)
    (render_frame_by_frame_ c) n (rendered_frames_counter_ c)
    (pause_animation_duration_ c) (transition_start_time_ c)
    (eye_point_property_ c) (focus_point_property_ c) (up_vector_property_ c)
    (fixed_up_property_ c) (publish_view_images_property_ c).

Definition set_rendered_frames_counter (n : Z) (c : Controller) : Controller :=
  mkController (cam_movements_buffer_ c) (animate_ c)
    (render_frame_by_frame_ c) (target_fps_ c) n (pause_animation_duration_ c)
    (transition_start_time_ c) (eye_point_property_ c)
    (focus_point_property_ c) (up_vector_property_ c) (fixed_up_property_ c)
    (publish_view_images_property_ c).

Definition set_pause_animation_duration (d : Duration) (c : Controller) : Controller :=
  mkController (cam_movements_buffer_ c) (animate_ c)
    (render_frame_by_frame_ c) (target_fps_ c) (rendered_frames_counter_ c) d
    (transition_start_time_ c) (eye_point_property_ c)
    (focus_point_property_ c) (up_vector_property_ c) (fixed_up_property_ c)
    (publish_view_images_property_ c).

Definition set_transition_start_time (t : WallTime) (c : Controller) : Controller :=
  mkController (cam_movements_buffer_ c) (animate_ c)
    (render_frame_by_frame_ c) (target_fps_ c) (rendered_frames_counter_ c)
    (pause_animation_duration_ c) t (eye_point_property_ c)
    (focus_point_property_ c) (up_vector_property_ c) (fixed_up_property_ c)
    (publish_view_images_property_ c).

Definition set_pose (e f u : Vec3) (c : Controller) : Controller :=
  mkController (cam_movements_buffer_ c) (animate_ c)
    (render_frame_by_frame_ c) (target_fps_ c) (rendered_frames_counter_ c)
    (pause_animation_duration_ c) (transition_start_time_ c) e f u
    (fixed_up_property_ c) (publish_view_images_property_ c).

Definition set_publish_view_images (p : bool) (c : Controller) : Controller :=
  mkController (cam_movements_buffer_ c) (animate_ c)
    (render_frame_by_frame_ c) (target_fps_ c) (rendered_frames_counter_ c)
    (pause_animation_duration_ c) (transition_start_time_ c)
    (eye_point_property_ c) (focus_point_property_ c) (up_vector_property_ c)
    (fixed_up_property_ c) p.

(** The queue of movements, oldest first. *)
Definition queue (c : Controller) : list OgreCameraMovement :=
  CircularBuffer.items (cam_movements_buffer_ c).

(** The state built by the constructor: a buffer of capacity 100, not
    animating, 60 frames per second, the default eye, focus and up vectors,
    a fixed vertical axis, and no publishing of view images.  The transition
    start time is not initialised by the constructor; it is [t0]. *)
Definition initial (t0 : WallTime) : Controller :=
  mkController (CircularBuffer.mk [] 100) false false 60%Z 0%Z 0%Z t0
    (Vector3.mk (real_of_int 5) (real_of_int 5) (real_of_int 10))
    Vector3.ZERO Vector3.UNIT_Z true false.

(** ** The operations of the engine *)

(** Modelled from the spec: [isMovementAvailable] is defined in the class
    header, which is not among the sources; the tick is a no-op "if fewer
    than two queue elements exist". *)
Definition isMovementAvailable (c : Controller) : bool :=
  (2 <=? CircularBuffer.size (cam_movements_buffer_ c))%nat.

(** [AnimatedViewController::beginNewTransition].  The test
    [transition_duration.toSec() < 0.0] is a test of the sign of the
    duration. *)
Definition beginNewTransition (now : WallTime) (eye focus up : Vec3)
    (transition_duration : Duration) (interpolation_speed : InterpolationSpeed)
    (c : Controller) : Controller :=
  if Rlt_dec (toSec transition_duration) 0 then c
  else
    let transition_duration :=
      if isZero transition_duration then Duration_0_001
      else transition_duration in
    let c :=
      if CircularBuffer.empty (cam_movements_buffer_ c) then
        let c := set_transition_start_time now c in
        set_buffer
          (CircularBuffer.push_back
             (mkMovement (eye_point_property_ c) (focus_point_property_ c)
                (up_vector_property_ c) Duration_0_001 interpolation_speed)
             (cam_movements_buffer_ c)) c
      else c in
    let c :=
      if CircularBuffer.full (cam_movements_buffer_ c) then
        set_buffer
          (CircularBuffer.set_capacity
             (CircularBuffer.capacity (cam_movements_buffer_ c) + 20)
             (cam_movements_buffer_ c)) c
      else c in
    let c :=
      set_buffer
        (CircularBuffer.push_back
           (mkMovement eye focus up transition_duration interpolation_speed)
           (cam_movements_buffer_ c)) c in
    set_animate true c.

(** [AnimatedViewController::cancelTransition]. *)
Definition cancelTransition (c : Controller) : Controller * list Event :=
  let c := set_animate false c in
  let c := set_buffer (CircularBuffer.clear (cam_movements_buffer_ c)) c in
  let c := set_rendered_frames_counter 0 c in
  if render_frame_by_frame_ c then
    (set_render_frame_by_frame false c, [PublishFinishedAnimation])
  else (c, []).

(** [AnimatedViewController::pauseAnimationCallback]: the requested duration
    overwrites the pending one. *)
Definition pauseAnimationCallback (pause_duration : Duration) (c : Controller)
    : Controller :=
  set_pause_animation_duration pause_duration c.

(** [AnimatedViewController::pauseAnimationOnRequest].  The test
    [pause_animation_duration_.toSec() > 0.0] is a test of the sign of the
    duration. *)
Definition pauseAnimationOnRequest (c : Controller) : Controller * list Event :=
  if Rgt_dec (toSec (pause_animation_duration_ c)) 0 then
    let d := pause_animation_duration_ c in
    let c := set_transition_start_time (transition_start_time_ c + d) c in
    (set_pause_animation_duration 0 c, [Sleep d])
  else (c, []).

(** The divisor of [computeRelativeProgressInTime]: in the frame-by-frame
    branch the [int] frame rate is converted to [double] and multiplied by
    the seconds of the duration. *)
Definition progress_divisor (transition_duration : Duration) (c : Controller)
    : Double :=
  if render_frame_by_frame_ c then
    double_mul (double_of_int (target_fps_ c)) (toSec_double transition_duration)
  else toSec_double transition_duration.

(** [AnimatedViewController::computeRelativeProgressInTime]; [now] is the
    wall time read in the branch that is not frame by frame.  Both quotients
    are quotients of [double]s: the [int] counter is converted to [double]
    and divided by the [double] product, which may be zero. *)
Definition computeRelativeProgressInTime (now : WallTime)
    (transition_duration : Duration) (c : Controller) : Double * Controller :=
  if render_frame_by_frame_ c then
    (double_div (double_of_int (rendered_frames_counter_ c))
       (double_mul (double_of_int (target_fps_ c))
          (toSec_double transition_duration)),
     set_rendered_frames_counter (rendered_frames_counter_ c + 1) c)
  else
    let duration_from_start := (now - transition_start_time_ c)%Z in
    (double_div (toSec_double duration_from_start)
       (toSec_double transition_duration), c).

(** [AnimatedViewController::prepareNextMovement].  The duration added is
    [ros::WallDuration(previous_transition_duration.toSec())]; the passage
    through the seconds as a [double] is taken to give back the nanoseconds
    it started from. *)
Definition prepareNextMovement (previous_transition_duration : Duration)
    (c : Controller) : Controller :=
  let c :=
    set_transition_start_time
      (transition_start_time_ c + previous_transition_duration) c in
  set_rendered_frames_counter 0 c.

(** [AnimatedViewController::updateCamera]. *)
Definition updateCamera (c : Controller) : list Event :=
  [ SetPosition (eye_point_property_ c);
    SetFixedYawAxis (fixed_up_property_ c) (up_vector_property_ c);
    SetDirection (Vector3.sub (focus_point_property_ c) (eye_point_property_ c));
    SetFocalShapePosition (focus_point_property_ c) ].

(** The interpolation of [update]: [start + fraction * (goal - start)], in
    the arithmetic of [Ogre::Real], component by component. *)
Definition interpolate (fraction : Real) (start goal : Vec3) : Vec3 :=
  Vector3.add start (Vector3.scale fraction (Vector3.sub goal start)).

(** The animating branch of [AnimatedViewController::update], entered when
    [animate_ && isMovementAvailable()]. *)
Definition animation_step (now : WallTime) (c : Controller)
    : Controller * list Event :=
  let (c, ev_pause) := pauseAnimationOnRequest c in
  match queue c with
  | start :: goal :: _ =>
      let (relative_progress_in_time, c) :=
        computeRelativeProgressInTime now (transition_duration goal) c in
      let finished_current_movement :=
        double_ge relative_progress_in_time (double_of_int 1) in
      let relative_progress_in_time :=
        if finished_current_movement then double_of_int 1
        else relative_progress_in_time in
      let relative_progress_in_space :=
        computeRelativeProgressInSpace relative_progress_in_time
          (interpolation_speed goal) in
      let new_position :=
        interpolate relative_progress_in_space (eye start) (eye goal) in
      let new_focus :=
        interpolate relative_progress_in_space (focus start) (focus goal) in
      let new_up :=
        interpolate relative_progress_in_space (up start) (up goal) in
      let c := set_pose new_position new_focus new_up c in
      let ev_pose :=
        [ SetFixedYawAxis true (up_vector_property_ c);
          SetDirection
            (Vector3.sub (focus_point_property_ c) (eye_point_property_ c));
          PublishCameraPose (eye_point_property_ c) ]
        ++ (if publish_view_images_property_ c then [PublishViewImage] else [])
      in
      if finished_current_movement then
        let c :=
          set_buffer (CircularBuffer.pop_front (cam_movements_buffer_ c)) c in
        if isMovementAvailable c then
          (prepareNextMovement (transition_duration goal) c,
           ev_pause ++ ev_pose)
        else
          let (c, ev_cancel) := cancelTransition c in
          (c, ev_pause ++ ev_pose ++ ev_cancel)
      else (c, ev_pause ++ ev_pose)
  | _ => (c, ev_pause)
  end.

(** [AnimatedViewController::update], the tick.  The refresh of the attached
    scene node and of the window-size properties, at its two ends, does not
    touch the engine and is left out. *)
Definition update (now : WallTime) (c : Controller) : Controller * list Event :=
  let (c, ev) :=
    if animate_ c && isMovementAvailable c then animation_step now c
    else (c, []) in
  (c, ev ++ updateCamera c).

(** The part of [view_controller_msgs::CameraTrajectory] that reaches the
    engine; the movements are given after their transformation into the
    attached frame. *)
Record CameraTrajectory : Type := mkTrajectory {
  trajectory : list OgreCameraMovement;
  render_frame_by_frame : Z;
  frames_per_second : Z
}.

(** [AnimatedViewController::cameraTrajectoryCallback], for a message that
    names no target frame (a change of the attached frame rewrites the pose
    properties and is the operation [SetPose] below).  The clock is read by
    the one enqueue that finds the buffer empty, so a single [now] serves the
    whole trajectory.  The test [transition_duration.toSec() >= 0.0] is a
    test of the sign of the duration.  The mouse and interaction-mode
    properties it sets are not part of the engine. *)
Definition cameraTrajectoryCallback (now : WallTime) (ct : CameraTrajectory)
    (c : Controller) : Controller :=
  match trajectory ct with
  | [] => c
  | _ =>
      let c :=
        if (render_frame_by_frame ct >? 0)%Z then
          set_publish_view_images true
            (set_target_fps (frames_per_second ct)
               (set_render_frame_by_frame true c))
        else c in
      fold_left
        (fun c cam_movement =>
           if Rge_dec (toSec (transition_duration cam_movement)) 0 then
             beginNewTransition now (eye cam_movement) (focus cam_movement)
               (up cam_movement) (transition_duration cam_movement)
               (interpolation_speed cam_movement) c
           else c)
        (trajectory ct) c
  end.

(** ** Public operations and reachable states

    [SetPose] stands for the places outside the engine that write the eye,
    focus and up properties: the mouse handler, a change of the attached
    frame, [reset] and [mimic]. *)

Inductive Op : Type :=
  | Enqueue (now : WallTime) (eye focus up : Vec3) (duration : Duration)
      (style : InterpolationSpeed)
  | EnqueueTrajectory (now : WallTime) (ct : CameraTrajectory)
  | Tick (now : WallTime)
  | CancelTransition
  | PauseFor (duration : Duration)
  | SetPose (eye focus up : Vec3).

Definition step (op : Op) (c : Controller) : Controller * list Event :=
  match op with
  | Enqueue now e f u d s => (beginNewTransition now e f u d s c, [])
  | EnqueueTrajectory now ct => (cameraTrajectoryCallback now ct c, [])
  | Tick now => update now c
  | CancelTransition => cancelTransition c
  | PauseFor d => (pauseAnimationCallback d c, [])
  | SetPose e f u => (set_pose e f u c, [])
  end.

(** Running a sequence of operations, collecting the events. *)
Fixpoint run (ops : list Op) (c : Controller) : Controller * list Event :=
  match ops with
  | [] => (c, [])
  | op :: rest =>
      let (c1, ev1) := step op c in
      let (c2, ev2) := run rest c1 in
      (c2, ev1 ++ ev2)
  end.

(** The states the controller can be in between two public operations. *)
Inductive reachable : Controller -> Prop :=
  | reachable_initial (t0 : WallTime) : reachable (initial t0)
  | reachable_step (op : Op) (c : Controller) :
      reachable c -> reachable (fst (step op c)).

(** Enqueuing the movements of a list one after the other. *)
Definition enqueue_all (now : WallTime) (ms : list OgreCameraMovement)
    (c : Controller) : Controller :=
  fold_left
    (fun c m =>
       beginNewTransition now (eye m) (focus m) (up m) (transition_duration m)
         (interpolation_speed m) c)
    ms c.

(** ** Well-formed buffers and accepted requests *)

(** The size of the buffer is within its capacity, which is positive. *)
Definition buffer_ok (c : Controller) : Prop :=
  (length (queue c) <= CircularBuffer.capacity (cam_movements_buffer_ c))%nat /\
  (1 <= CircularBuffer.capacity (cam_movements_buffer_ c))%nat.

(** The element pushed in front of the first movement of a transition. *)
Definition current_pose_movement (s : InterpolationSpeed) (c : Controller)
    : OgreCameraMovement :=
  mkMovement (eye_point_property_ c) (focus_point_property_ c)
    (up_vector_property_ c) Duration_0_001 s.

(** The duration stored for a requested one. *)
Definition stored_duration (d : Duration) : Duration :=
  if isZero d then Duration_0_001 else d.

(** What an accepted enqueue finds in the buffer just before it pushes the
    requested movement. *)
Definition queue_before_push (s : InterpolationSpeed) (c : Controller)
    : list OgreCameraMovement :=
  match queue c with
  | [] => [current_pose_movement s c]
  | _ => queue c
  end.

(** ** The invariant of the engine

    Between two public operations: the buffer holds no more than its
    capacity, which is at least the initial 100; an animating engine has a
    start and a goal element; an idle engine has an empty queue and a frame
    counter of zero; every queued movement has a positive duration. *)
Definition engine_invariant (c : Controller) : Prop :=
  (100 <= CircularBuffer.capacity (cam_movements_buffer_ c))%nat /\
  (length (queue c) <= CircularBuffer.capacity (cam_movements_buffer_ c))%nat /\
  (animate_ c = true -> (2 <= length (queue c))%nat) /\
  (animate_ c = false -> queue c = [] /\ rendered_frames_counter_ c = 0%Z) /\
  Forall (fun m => (0 < transition_duration m)%Z) (queue c).

(** ** The mouse path that moves the eye

    [AnimatedViewController::move_eye], reached from the mouse handler.  The
    rotation by the camera orientation is the argument [orientation];
    [real_distance_min] is the minimum given to the distance property by the
    constructor, [setMin( 0.01 )]. *)
Definition move_eye (orientation : Vec3 -> Vec3) (x y z : Real)
    (c : Controller) : Controller :=
  let translate := Vector3.mk x y z in
  let new_position :=
    Vector3.add (eye_point_property_ c) (orientation translate) in
  if real_gt
       (Vector3.length (Vector3.sub new_position (focus_point_property_ c)))
       real_distance_min
  then
    set_pose new_position (focus_point_property_ c) (up_vector_property_ c) c
  else c.

(** ** Other members that read or write the pose

    The camera orientation and its axes come from the Ogre camera; the
    members below take them as arguments.  The default transition time is
    the duration built from the "Transition Time" property, and the default
    interpolation speed is the default argument of [beginNewTransition],
    declared in the class header; both are arguments too. *)


(** [AnimatedViewController::orbitCameraTo]. *)
Definition orbitCameraTo (now : WallTime) (default_transition_time : Duration)
    (default_speed : InterpolationSpeed) (point : Vec3) (c : Controller)
    : Controller :=
  beginNewTransition now point (focus_point_property_ c)
    (up_vector_property_ c) default_transition_time default_speed c.

(** [AnimatedViewController::moveEyeWithFocusTo]. *)
Definition moveEyeWithFocusTo (now : WallTime)
    (default_transition_time : Duration) (default_speed : InterpolationSpeed)
    (point : Vec3) (c : Controller) : Controller :=
  beginNewTransition now point
    (Vector3.add (focus_point_property_ c)
       (Vector3.sub point (eye_point_property_ c)))
    (up_vector_property_ c) default_transition_time default_speed c.

(** [AnimatedViewController::lookAt]; [mouse_enabled] is the value of the
    "Mouse Enabled" property and [fixedFrameToAttachedLocal] the change of
    frame, defined in the class header. *)
Definition lookAt (now : WallTime) (default_transition_time : Duration)
    (default_speed : InterpolationSpeed) (mouse_enabled : bool)
    (fixedFrameToAttachedLocal : Vec3 -> Vec3) (point : Vec3) (c : Controller)
    : Controller :=
  if negb mouse_enabled then c
  else
    let new_point := fixedFrameToAttachedLocal point in
    beginNewTransition now (eye_point_property_ c) new_point
      (up_vector_property_ c) default_transition_time default_speed c.

(** [AnimatedViewController::transitionFrom]; [previous_view] is the result
    of the [dynamic_cast], [None] when the previous view is of another
    class. *)
Definition transitionFrom (now : WallTime) (default_transition_time : Duration)
    (default_speed : InterpolationSpeed) (previous_view : option Controller)
    (c : Controller) : Controller :=
  match previous_view with
  | Some fvc =>
      let new_eye := eye_point_property_ c in
      let new_focus := focus_point_property_ c in
      let new_up := up_vector_property_ c in
      let c :=
        set_pose (eye_point_property_ fvc) (focus_point_property_ fvc)
          (up_vector_property_ fvc) c in
      beginNewTransition now new_eye new_focus new_up default_transition_time
        default_speed c
  | None => c
  end.

(** The movements of a trajectory that [cameraTrajectoryCallback] hands to
    [beginNewTransition] and that it accepts, as they are stored. *)
Definition accepted_movements (ms : list OgreCameraMovement)
    : list OgreCameraMovement :=
  map
    (fun m =>
       mkMovement (eye m) (focus m) (up m)
         (stored_duration (transition_duration m)) (interpolation_speed m))
    (filter (fun m => (0 <=? transition_duration m)%Z) ms).

End Engine.

(** ** Exact arithmetic

    The arithmetic of the real numbers: what the code would compute with no
    rounding, with the convention of [Rdiv] for a zero divisor. *)

Definition exact_arithmetic : Arithmetic := {|
  Real := R;
  Double := R;
  real_of_int := IZR;
  real_half := 1 / 2;
  real_distance_min := 1 / 100;
  real_add := Rplus;
  real_sub := Rminus;
  real_mul := Rmult;
  real_sqrt := sqrt;
  real_gt := fun a b => if Rgt_dec a b then true else false;
  double_of_int := IZR;
  toSec_double := toSec;
  double_add := Rplus;
  double_mul := Rmult;
  double_div := Rdiv;
  double_neg := Ropp;
  double_cos := cos;
  M_PI := PI;
  M_PI_2 := PI / 2;
  double_ge := fun a b => if Rge_dec a b then true else false;
  real_of_double := fun t => t
|}.

(** ** IEEE 754 arithmetic

    [float] is binary32 and [double] is binary64, with rounding to nearest,
    ties to even, as [SpecFloat] defines them.  The cosine of the C library
    is not specified by the standard and is the argument [libm_cos]. *)

Module IEEE.

Definition float_add := SFadd 24 128.
Definition float_sub := SFsub 24 128.
Definition float_mul := SFmul 24 128.
Definition float_sqrt := SFsqrt 24 128.
Definition float_of_int (n : Z) : spec_float :=
  binary_normalize 24 128 n 0 false.

Definition double_add := SFadd 53 1024.
Definition double_mul := SFmul 53 1024.
Definition double_div := SFdiv 53 1024.
Definition double_of_int (n : Z) : spec_float :=
  binary_normalize 53 1024 n 0 false.

(** [static_cast<float>] of a [double]. *)
Definition float_of_double (t : spec_float) : spec_float :=
  match t with
  | S754_finite s m e =>
      binary_normalize 24 128 (if s then Z.neg m else Z.pos m) e s
  | _ => t
  end.

(** [a > b] and [a >= b]: false when an operand is a NaN. *)
Definition gt (a b : spec_float) : bool := SFltb b a.
Definition ge (a b : spec_float) : bool := SFleb b a.

(** [0.5f], [0.01] as a [float], and the [double]s [1e-9], [M_PI] and
    [M_PI_2]. *)
Definition float_0_5 : spec_float := S754_finite false 8388608 (-24).
Definition float_0_01 : spec_float := S754_finite false 10737418 (-30).
Definition double_1e_9 : spec_float := S754_finite false 4835703278458517 (-82).
Definition double_M_PI : spec_float := S754_finite false 7074237752028440 (-51).
Definition double_M_PI_2 : spec_float := S754_finite false 7074237752028440 (-52).

(** [ros::Duration::toSec()] of roscpp:
    [static_cast<double>(sec) + 1e-9 * static_cast<double>(nsec)], where
    [nsec] is between 0 and 999999999. *)
Definition toSec (d : Duration) : spec_float :=
  double_add (double_of_int (d / 1000000000)%Z)
    (double_mul double_1e_9 (double_of_int (d mod 1000000000)%Z)).

End IEEE.

Definition ieee_arithmetic (libm_cos : spec_float -> spec_float)
    : Arithmetic := {|
  Real := spec_float;
  Double := spec_float;
  real_of_int := IEEE.float_of_int;
  real_half := IEEE.float_0_5;
  real_distance_min := IEEE.float_0_01;
  real_add := IEEE.float_add;
  real_sub := IEEE.float_sub;
  real_mul := IEEE.float_mul;
  real_sqrt := IEEE.float_sqrt;
  real_gt := IEEE.gt;
  double_of_int := IEEE.double_of_int;
  toSec_double := IEEE.toSec;
  double_add := IEEE.double_add;
  double_mul := IEEE.double_mul;
  double_div := IEEE.double_div;
  double_neg := SFopp;
  double_cos := libm_cos;
  M_PI := IEEE.double_M_PI;
  M_PI_2 := IEEE.double_M_PI_2;
  double_ge := IEEE.ge;
  real_of_double := IEEE.float_of_double
|}.

(** ** Sample states *)

(** A vector of real numbers. *)
Abbreviation Vector3_exact := (@Vector3.mk exact_arithmetic).

(** A buffer of capacity two that is full, in exact arithmetic. *)
Definition full_controller : @Controller exact_arithmetic :=
  mkController
    (CircularBuffer.mk
       [ mkMovement Vector3.ZERO Vector3.UNIT_Z Vector3.UNIT_Z Duration_0_001 WAVE;
         mkMovement Vector3.UNIT_Z Vector3.ZERO Vector3.UNIT_Z 1000000000 FULL ]
       2)
    true false 60 0 0 0 Vector3.ZERO Vector3.UNIT_Z Vector3.UNIT_Z true false.

(** The constructor state after the enqueue, at time 0, of a movement of
    one second, in exact arithmetic. *)
Definition animating_controller : @Controller exact_arithmetic :=
  beginNewTransition 0 (Vector3_exact 0 0 10) Vector3.ZERO Vector3.UNIT_Z
    1000000000 FULL (initial 0).

(** A cosine that is never to be called: it answers NaN, which would show in
    every value computed from it. *)
Definition no_cos (t : spec_float) : spec_float := S754_nan.

(** [0.1f], the [float] nearest to one tenth. *)
Definition float_0_1 : spec_float := S754_finite false 13421773 (-27).

(** In IEEE arithmetic, the constructor state (eye (5,5,10)) after the
    enqueue, at time 0, of a movement of one second to the eye
    (0.1f, 0.1f, 0.1f) in the style FULL, which takes no cosine. *)
Definition rounding_controller : @Controller (ieee_arithmetic no_cos) :=
  beginNewTransition 0
    (@Vector3.mk (ieee_arithmetic no_cos) float_0_1 float_0_1 float_0_1)
    Vector3.ZERO Vector3.UNIT_Z 1000000000 FULL (initial 0).

(** * Properties *)

(** ** Durations in seconds *)

Lemma toSec_lt_0 (d : Duration) : toSec d < 0 <-> (d < 0)%Z.
Proof.
  unfold toSec; split; intro H.
  - apply lt_IZR. simpl. lra.
  - apply IZR_lt in H. simpl in H. lra.
Qed.

Lemma toSec_gt_0 (d : Duration) : toSec d > 0 <-> (0 < d)%Z.
Proof.
  unfold toSec; split; intro H.
  - apply lt_IZR. simpl. lra.
  - apply IZR_lt in H. simpl in H. lra.
Qed.

Lemma toSec_0_001 : toSec Duration_0_001 = 1 / 1000.
Proof. unfold toSec, Duration_0_001. lra. Qed.

Lemma toSec_plus (a b : Duration) : toSec (a + b)%Z = toSec a + toSec b.
Proof. unfold toSec. rewrite plus_IZR. lra. Qed.

Lemma toSec_minus (a b : Duration) : toSec (a - b)%Z = toSec a - toSec b.
Proof. unfold toSec. rewrite minus_IZR. lra. Qed.

(** ** Deciding the comparisons of the code *)

Lemma Rlt_dec_true (a b : R) (T : Type) (u v : T) :
  a < b -> (if Rlt_dec a b then u else v) = u.
Proof. intro H. destruct (Rlt_dec a b); [reflexivity | contradiction]. Qed.

Lemma Rlt_dec_false (a b : R) (T : Type) (u v : T) :
  ~ a < b -> (if Rlt_dec a b then u else v) = v.
Proof. intro H. destruct (Rlt_dec a b); [contradiction | reflexivity]. Qed.

Lemma Rgt_dec_true (a b : R) (T : Type) (u v : T) :
  a > b -> (if Rgt_dec a b then u else v) = u.
Proof. intro H. destruct (Rgt_dec a b); [reflexivity | contradiction]. Qed.

Lemma Rgt_dec_false (a b : R) (T : Type) (u v : T) :
  ~ a > b -> (if Rgt_dec a b then u else v) = v.
Proof. intro H. destruct (Rgt_dec a b); [contradiction | reflexivity]. Qed.

Lemma Rge_dec_true (a b : R) (T : Type) (u v : T) :
  a >= b -> (if Rge_dec a b then u else v) = u.
Proof. intro H. destruct (Rge_dec a b); [reflexivity | contradiction]. Qed.

Lemma Rge_dec_false (a b : R) (T : Type) (u v : T) :
  ~ a >= b -> (if Rge_dec a b then u else v) = v.
Proof. intro H. destruct (Rge_dec a b); [contradiction | reflexivity]. Qed.

Lemma toSec_ge_0 (d : Duration) : toSec d >= 0 <-> (0 <= d)%Z.
Proof.
  split; intro H.
  - destruct (Z.lt_ge_cases d 0) as [Hn | Hp]; [ | exact Hp].
    apply toSec_lt_0 in Hn. lra.
  - destruct (Rlt_dec (toSec d) 0) as [Hn | Hp]; [ | lra].
    apply toSec_lt_0 in Hn. lia.
Qed.

(** The elapsed fraction reaches 1 exactly when the elapsed time reaches the
    duration. *)
Lemma fraction_ge_1 (elapsed d : Duration) :
  (0 < d)%Z -> (toSec elapsed / toSec d >= 1 <-> (d <= elapsed)%Z).
Proof.
  intro Hd. assert (Hs : toSec d > 0) by (apply toSec_gt_0; exact Hd).
  split; intro H.
  - apply le_IZR.
    assert (toSec d <= toSec elapsed).
    { apply Rge_le in H.
      apply (Rmult_le_compat_r (toSec d)) in H; [ | lra].
      unfold Rdiv in H. rewrite Rmult_assoc, Rinv_l in H; lra. }
    unfold toSec in *. lra.
  - apply IZR_le in H.
    assert (toSec d <= toSec elapsed) by (unfold toSec; lra).
    apply Rle_ge. unfold Rdiv.
    apply (Rmult_le_reg_r (toSec d)); [lra | ].
    rewrite Rmult_assoc, Rinv_l; lra.
Qed.

Lemma stored_duration_pos (d : Duration) : (0 <= d)%Z -> (0 < stored_duration d)%Z.
Proof.
  intro H. unfold stored_duration, isZero, Duration_0_001.
  destruct (Z.eqb_spec d 0); lia.
Qed.

(** ** The engine, whatever the arithmetic *)

Section Engine_properties.
Context {A : Arithmetic}.

Lemma Vector3_eq_intro (a b : Vec3) :
  Vector3.x a = Vector3.x b -> Vector3.y a = Vector3.y b ->
  Vector3.z a = Vector3.z b -> a = b.
Proof. destruct a, b; simpl; intros -> -> ->; reflexivity. Qed.

Lemma beginNewTransition_rejected now e f u d s c :
  (d < 0)%Z -> beginNewTransition now e f u d s c = c.
Proof.
  intro H. unfold beginNewTransition.
  apply Rlt_dec_true, toSec_lt_0, H.
Qed.

Lemma beginNewTransition_accepted now e f u d s c :
  (0 <= d)%Z -> buffer_ok c ->
  beginNewTransition now e f u d s c =
  mkController
    (CircularBuffer.mk
       (queue_before_push s c ++ [mkMovement e f u (stored_duration d) s])
       (if Nat.eqb (length (queue_before_push s c))
             (CircularBuffer.capacity (cam_movements_buffer_ c))
        then CircularBuffer.capacity (cam_movements_buffer_ c) + 20
        else CircularBuffer.capacity (cam_movements_buffer_ c)))
    true (render_frame_by_frame_ c) (target_fps_ c)
    (rendered_frames_counter_ c) (pause_animation_duration_ c)
    (match queue c with [] => now | _ => transition_start_time_ c end)
    (eye_point_property_ c) (focus_point_property_ c) (up_vector_property_ c)
    (fixed_up_property_ c) (publish_view_images_property_ c).
Proof.
  intros Hd [Hsize Hcap]. unfold beginNewTransition.
  rewrite Rlt_dec_false by (intro Hn; apply toSec_lt_0 in Hn; lia).
  fold (stored_duration d).
  destruct c as [[items cap] an rf fps cnt pa st ey fo upv fx pv].
  unfold queue_before_push, queue, current_pose_movement in *.
  unfold CircularBuffer.push_back, CircularBuffer.full, CircularBuffer.empty,
    CircularBuffer.size, CircularBuffer.set_capacity.
  cbn -[Nat.eqb Nat.add firstn] in *.
  destruct items as [ | m items]; cbn -[Nat.eqb Nat.add firstn] in *.
  - destruct cap as [ | [ | cap]]; [lia | reflexivity | reflexivity].
  - change (S (length items) =? 0)%nat with false.
    cbn -[Nat.eqb Nat.add firstn].
    destruct (Nat.eqb_spec (S (length items)) cap) as [E | E];
      cbn -[Nat.eqb Nat.add firstn].
    + rewrite firstn_all2 by (cbn [length]; lia). cbn [length].
      destruct (Nat.eqb_spec (S (length items)) (cap + 20)); [lia | ].
      reflexivity.
    + destruct (Nat.eqb_spec (S (length items)) cap); [contradiction | ].
      reflexivity.
Qed.

(** ** The invariant holds in every reachable state *)

Lemma invariant_buffer_ok (c : Controller) : engine_invariant c -> buffer_ok c.
Proof. intros (Hcap & Hsize & _). split; [exact Hsize | lia]. Qed.

Lemma invariant_initial (t0 : WallTime) : engine_invariant (initial t0).
Proof.
  unfold engine_invariant, initial, queue; simpl.
  repeat split; try lia; try discriminate. constructor.
Qed.

Lemma invariant_beginNewTransition now e f u d s c :
  engine_invariant c -> engine_invariant (beginNewTransition now e f u d s c).
Proof.
  intro Hinv. destruct (Z.lt_ge_cases d 0) as [Hn | Hp].
  - rewrite beginNewTransition_rejected by exact Hn. exact Hinv.
  - rewrite beginNewTransition_accepted
      by (try exact Hp; apply invariant_buffer_ok, Hinv).
    destruct Hinv as (Hcap & Hsize & Han & Hidle & Hpos).
    assert (Hpre : (1 <= length (queue_before_push s c))%nat /\
                   (length (queue_before_push s c)
                    <= CircularBuffer.capacity (cam_movements_buffer_ c))%nat /\
                   (queue c <> [] -> (2 <= length (queue_before_push s c))%nat) /\
                   Forall (fun m => (0 < transition_duration m)%Z)
                     (queue_before_push s c)).
    { unfold queue_before_push. destruct (queue c) as [ | m q] eqn:Eq.
      - simpl. repeat split; try lia.
        + intro H; contradiction.
        + constructor; [ | constructor]. simpl. unfold Duration_0_001. lia.
      - repeat split; try (simpl; lia); try exact Hsize; try exact Hpos.
        intros _. destruct (animate_ c) eqn:Ea.
        + apply Han. reflexivity.
        + destruct (Hidle eq_refl) as [Hq _]. discriminate. }
    destruct Hpre as (Hp1 & Hp2 & Hp3 & Hp4).
    unfold engine_invariant, queue; cbn -[Nat.eqb Nat.add].
    rewrite length_app; cbn [length].
    destruct (Nat.eqb_spec (length (queue_before_push s c))
                (CircularBuffer.capacity (cam_movements_buffer_ c)));
      repeat split; try lia; try discriminate.
    + apply Forall_app; split; [exact Hp4 | ].
      constructor; [ | constructor]. simpl. apply stored_duration_pos, Hp.
    + apply Forall_app; split; [exact Hp4 | ].
      constructor; [ | constructor]. simpl. apply stored_duration_pos, Hp.
Qed.

Lemma invariant_cancelTransition c :
  (100 <= CircularBuffer.capacity (cam_movements_buffer_ c))%nat ->
  engine_invariant (fst (cancelTransition c)).
Proof.
  intros Hcap. unfold cancelTransition.
  destruct c as [[items cap] an rf fps cnt pa st ey fo upv fx pv].
  simpl in *. destruct rf; unfold engine_invariant, queue; simpl;
    repeat split; try lia; try discriminate; constructor.
Qed.

Lemma invariant_pauseAnimationCallback d c :
  engine_invariant c -> engine_invariant (pauseAnimationCallback d c).
Proof. intro H. exact H. Qed.

(** What [pauseAnimationOnRequest] and [computeRelativeProgressInTime] leave
    alone. *)
Lemma pauseAnimationOnRequest_keeps c :
  let c1 := fst (pauseAnimationOnRequest c) in
  cam_movements_buffer_ c1 = cam_movements_buffer_ c /\
  animate_ c1 = animate_ c /\
  render_frame_by_frame_ c1 = render_frame_by_frame_ c /\
  target_fps_ c1 = target_fps_ c /\
  rendered_frames_counter_ c1 = rendered_frames_counter_ c /\
  publish_view_images_property_ c1 = publish_view_images_property_ c /\
  (pause_animation_duration_ c1 <= 0)%Z /\
  ((pause_animation_duration_ c <= 0)%Z ->
   transition_start_time_ c1 = transition_start_time_ c) /\
  ((0 < pause_animation_duration_ c)%Z ->
   transition_start_time_ c1 =
     (transition_start_time_ c + pause_animation_duration_ c)%Z).
Proof.
  unfold pauseAnimationOnRequest.
  destruct c as [b an rf fps cnt pa st ey fo upv fx pv].
  cbn [pause_animation_duration_].
  destruct (Rgt_dec (toSec pa) 0) as [Hp | Hn]; cbn [fst];
    repeat split; try reflexivity; try (cbn; lia).
  - apply toSec_gt_0 in Hp. cbn. intro. lia.
  - cbn. destruct (Z.lt_ge_cases 0 pa) as [H | H]; [ | lia].
    apply toSec_gt_0 in H. contradiction.
  - cbn. intro H. apply toSec_gt_0 in H. contradiction.
Qed.

Lemma computeRelativeProgressInTime_keeps now d c :
  let c2 := snd (computeRelativeProgressInTime now d c) in
  cam_movements_buffer_ c2 = cam_movements_buffer_ c /\
  animate_ c2 = animate_ c /\
  render_frame_by_frame_ c2 = render_frame_by_frame_ c /\
  transition_start_time_ c2 = transition_start_time_ c /\
  pause_animation_duration_ c2 = pause_animation_duration_ c /\
  publish_view_images_property_ c2 = publish_view_images_property_ c /\
  target_fps_ c2 = target_fps_ c /\
  rendered_frames_counter_ c2 =
    (if render_frame_by_frame_ c then (rendered_frames_counter_ c + 1)%Z
     else rendered_frames_counter_ c).
Proof.
  unfold computeRelativeProgressInTime.
  destruct c as [b an rf fps cnt pa st ey fo upv fx pv].
  cbn [render_frame_by_frame_]. destruct rf; repeat split; reflexivity.
Qed.

(** The animating branch of the tick, unfolded up to the comparison of the
    time fraction with 1. *)
Lemma animation_step_eq now c start goal rest :
  queue c = start :: goal :: rest ->
  animation_step now c =
  let c1 := fst (pauseAnimationOnRequest c) in
  let ev_pause := snd (pauseAnimationOnRequest c) in
  let t := fst (computeRelativeProgressInTime now (transition_duration goal) c1) in
  let c2 := snd (computeRelativeProgressInTime now (transition_duration goal) c1) in
  let finished := double_ge t (double_of_int 1) in
  let fraction :=
    computeRelativeProgressInSpace (if finished then double_of_int 1 else t)
      (interpolation_speed goal) in
  let c3 :=
    set_pose (interpolate fraction (eye start) (eye goal))
      (interpolate fraction (focus start) (focus goal))
      (interpolate fraction (up start) (up goal)) c2 in
  let ev_pose :=
    [ SetFixedYawAxis true (up_vector_property_ c3);
      SetDirection
        (Vector3.sub (focus_point_property_ c3) (eye_point_property_ c3));
      PublishCameraPose (eye_point_property_ c3) ]
    ++ (if publish_view_images_property_ c3 then [PublishViewImage] else []) in
  if finished then
    let c4 :=
      set_buffer (CircularBuffer.pop_front (cam_movements_buffer_ c3)) c3 in
    if isMovementAvailable c4 then
      (prepareNextMovement (transition_duration goal) c4, ev_pause ++ ev_pose)
    else
      (fst (cancelTransition c4),
       ev_pause ++ ev_pose ++ snd (cancelTransition c4))
  else (c3, ev_pause ++ ev_pose).
Proof.
  intros Eq. unfold animation_step.
  destruct (pauseAnimationOnRequest c) as [c1 ev_pause] eqn:Ep.
  assert (Eq1 : queue c1 = queue c).
  { unfold pauseAnimationOnRequest in Ep.
    destruct (Rgt_dec (toSec (pause_animation_duration_ c)) 0);
      inversion Ep; reflexivity. }
  rewrite Eq1, Eq. cbv zeta. cbn [fst snd].
  destruct (computeRelativeProgressInTime now (transition_duration goal) c1)
    as [t c2] eqn:Et.
  cbn [fst snd].
  destruct (double_ge t (double_of_int 1)).
  - destruct (isMovementAvailable _).
    + reflexivity.
    + destruct (cancelTransition _). reflexivity.
  - reflexivity.
Qed.

Lemma update_animating now c :
  animate_ c = true -> (2 <= length (queue c))%nat ->
  update now c =
  (fst (animation_step now c),
   snd (animation_step now c) ++ updateCamera (fst (animation_step now c))).
Proof.
  intros Ea Hlen. unfold update, isMovementAvailable, CircularBuffer.size.
  rewrite Ea. fold (queue c).
  destruct (Nat.leb_spec 2 (length (queue c))) as [_ | H]; [ | lia].
  simpl. destruct (animation_step now c). reflexivity.
Qed.

(** The buffer of the controller in which the pose is written. *)
Lemma buffer_before_pop now d e f u c :
  cam_movements_buffer_
    (set_pose e f u
       (snd (computeRelativeProgressInTime now d
               (fst (pauseAnimationOnRequest c))))) =
  cam_movements_buffer_ c.
Proof.
  cbn [set_pose cam_movements_buffer_].
  destruct (computeRelativeProgressInTime_keeps now d
              (fst (pauseAnimationOnRequest c))) as (-> & _).
  apply pauseAnimationOnRequest_keeps.
Qed.

Lemma animate_before_pop now d e f u c :
  animate_
    (set_pose e f u
       (snd (computeRelativeProgressInTime now d
               (fst (pauseAnimationOnRequest c))))) =
  animate_ c.
Proof.
  cbn [set_pose animate_].
  destruct (computeRelativeProgressInTime_keeps now d
              (fst (pauseAnimationOnRequest c))) as (_ & -> & _).
  apply pauseAnimationOnRequest_keeps.
Qed.

Lemma invariant_animation_step now c :
  engine_invariant c -> animate_ c = true ->
  engine_invariant (fst (animation_step now c)).
Proof.
  intros (Hcap & Hsize & Han & Hidle & Hpos) Ea.
  specialize (Han Ea). clear Hidle.
  destruct (queue c) as [ | start [ | goal rest]] eqn:Eq;
    try (simpl in Han; lia).
  rewrite (animation_step_eq now c start goal rest Eq). cbv zeta.
  match goal with
  | |- context [set_pose ?e ?f ?u ?c2] =>
      set (c3 := set_pose e f u c2)
  end.
  assert (Hb : cam_movements_buffer_ c3 = cam_movements_buffer_ c)
    by apply buffer_before_pop.
  assert (Ha : animate_ c3 = true)
    by (unfold c3; rewrite animate_before_pop; exact Ea).
  assert (Hq : queue c3 = start :: goal :: rest)
    by (unfold queue in *; rewrite Hb; exact Eq).
  clearbody c3.
  destruct (double_ge _ _); cbn [fst].
  - destruct (isMovementAvailable _) eqn:Eavail; cbn [fst].
    + unfold isMovementAvailable, CircularBuffer.size in Eavail.
      apply Nat.leb_le in Eavail.
      unfold engine_invariant, queue in *.
      cbn [prepareNextMovement set_rendered_frames_counter
           set_transition_start_time set_buffer cam_movements_buffer_
           animate_ rendered_frames_counter_ CircularBuffer.pop_front
           CircularBuffer.items CircularBuffer.capacity] in *.
      rewrite Hb in *. rewrite Eq in *. rewrite Ha. cbn [tl length] in *.
      repeat split; try lia; try discriminate.
      inversion Hpos; assumption.
    + apply invariant_cancelTransition.
      cbn [set_buffer cam_movements_buffer_ CircularBuffer.pop_front
           CircularBuffer.capacity].
      rewrite Hb. exact Hcap.
  - unfold engine_invariant, queue in *. rewrite Hb, Eq, Ha.
    repeat split; try assumption; try discriminate; simpl; lia.
Qed.

Lemma invariant_update now c :
  engine_invariant c -> engine_invariant (fst (update now c)).
Proof.
  intro Hinv. unfold update.
  destruct (animate_ c && isMovementAvailable c) eqn:E.
  - apply andb_prop in E. destruct E as [Ea _].
    pose proof (invariant_animation_step now c Hinv Ea) as H.
    destruct (animation_step now c). exact H.
  - exact Hinv.
Qed.

Lemma invariant_fold_beginNewTransition now ms c :
  engine_invariant c ->
  engine_invariant
    (fold_left
       (fun c cam_movement =>
          if Rge_dec (toSec (transition_duration cam_movement)) 0 then
            beginNewTransition now (eye cam_movement) (focus cam_movement)
              (up cam_movement) (transition_duration cam_movement)
              (interpolation_speed cam_movement) c
          else c) ms c).
Proof.
  revert c. induction ms as [ | m ms IH]; intros c Hinv; simpl.
  - exact Hinv.
  - apply IH. destruct (Rge_dec (toSec (transition_duration m)) 0).
    + apply invariant_beginNewTransition, Hinv.
    + exact Hinv.
Qed.

Lemma invariant_cameraTrajectoryCallback now ct c :
  engine_invariant c -> engine_invariant (cameraTrajectoryCallback now ct c).
Proof.
  intro Hinv. unfold cameraTrajectoryCallback.
  destruct (trajectory ct) as [ | m ms] eqn:Et; [exact Hinv | ].
  apply invariant_fold_beginNewTransition.
  destruct (render_frame_by_frame ct >? 0)%Z; exact Hinv.
Qed.

Lemma invariant_step op c :
  engine_invariant c -> engine_invariant (fst (step op c)).
Proof.
  intro Hinv. destruct op; simpl.
  - apply invariant_beginNewTransition, Hinv.
  - apply invariant_cameraTrajectoryCallback, Hinv.
  - apply invariant_update, Hinv.
  - apply invariant_cancelTransition, Hinv.
  - apply invariant_pauseAnimationCallback, Hinv.
  - exact Hinv.
Qed.

Lemma reachable_invariant c : reachable c -> engine_invariant c.
Proof.
  induction 1 as [t0 | op c _ IH].
  - apply invariant_initial.
  - apply invariant_step, IH.
Qed.

(** ** Enqueuing *)

(** C5. An enqueue request with a strictly negative duration changes
    nothing: the controller (queue, engine mode, clock state and all the
    rest) is returned as it was, and no collaborator is called. *)
Theorem C5_negative_duration_rejected now e f u d s c :
  toSec d < 0 ->
  step (Enqueue now e f u d s) c = (c, []).
Proof.
  intro H. simpl. f_equal.
  apply beginNewTransition_rejected, toSec_lt_0, H.
Qed.

(** C8. An accepted enqueue never drops an element for lack of room.  On a
    buffer that is at its capacity the capacity is raised (by 20) before the
    push, and the queue afterwards is the old queue, in its order, followed
    by the new descriptor.  In general the old queue is kept in order, the
    new descriptor is at the tail, and the buffer is again within its
    capacity. *)
Theorem C8_enqueue_grows_capacity now e f u d s c :
  (0 <= d)%Z -> buffer_ok c ->
  let c' := beginNewTransition now e f u d s c in
  let requested := mkMovement e f u (stored_duration d) s in
  (length (queue c) = CircularBuffer.capacity (cam_movements_buffer_ c) ->
   CircularBuffer.capacity (cam_movements_buffer_ c') =
     (CircularBuffer.capacity (cam_movements_buffer_ c) + 20)%nat /\
   queue c' = queue c ++ [requested]) /\
  (exists front, queue c' = front ++ queue c ++ [requested]) /\
  (length (queue c') <= CircularBuffer.capacity (cam_movements_buffer_ c'))%nat.
Proof.
  intros Hd Hok c' requested. subst c' requested.
  rewrite beginNewTransition_accepted by assumption.
  destruct Hok as [Hsize Hcap].
  unfold queue at 2 4 6. cbn -[Nat.eqb Nat.add].
  unfold queue_before_push.
  destruct (queue c) as [ | m q] eqn:Eq.
  - split; [cbn [length]; intro E; lia | ]. split.
    + exists [current_pose_movement s c]. reflexivity.
    + cbn -[Nat.eqb Nat.add].
      destruct (Nat.eqb_spec 1 (CircularBuffer.capacity (cam_movements_buffer_ c)));
        lia.
  - split; [ | split].
    + intro E. rewrite E, Nat.eqb_refl. split; reflexivity.
    + exists []. reflexivity.
    + rewrite length_app.
      destruct (Nat.eqb_spec (length (m :: q))
                  (CircularBuffer.capacity (cam_movements_buffer_ c)));
        cbn [length] in *; lia.
Qed.

(** C10. An enqueue on a non-empty queue only appends: the transition start
    time, the frame counter and every queued element (so the start and the
    goal of the running segment) stay as they are, the new descriptor comes
    last, and the time fraction computed for any clock value and duration is
    the same before and after. *)
Theorem C10_enqueue_while_animating_appends now e f u d s c :
  queue c <> [] ->
  (length (queue c) <= CircularBuffer.capacity (cam_movements_buffer_ c))%nat ->
  let c' := beginNewTransition now e f u d s c in
  transition_start_time_ c' = transition_start_time_ c /\
  rendered_frames_counter_ c' = rendered_frames_counter_ c /\
  (exists tail, queue c' = queue c ++ tail) /\
  ((0 <= d)%Z -> queue c' = queue c ++ [mkMovement e f u (stored_duration d) s]) /\
  (forall i, (i < length (queue c))%nat ->
             nth_error (queue c') i = nth_error (queue c) i) /\
  (forall now' duration,
     fst (computeRelativeProgressInTime now' duration c') =
     fst (computeRelativeProgressInTime now' duration c)).
Proof.
  intros Hne Hsize c'. subst c'.
  destruct (Z.lt_ge_cases d 0) as [Hn | Hp].
  - rewrite beginNewTransition_rejected by exact Hn.
    split; [reflexivity | ]. split; [reflexivity | ].
    split; [exists []; symmetry; apply app_nil_r | ].
    split; [intro; lia | ]. split; reflexivity.
  - assert (Hok : buffer_ok c).
    { split; [exact Hsize | ]. destruct (queue c); [contradiction | ].
      simpl in Hsize. lia. }
    rewrite beginNewTransition_accepted by assumption.
    assert (Hq : queue_before_push s c = queue c).
    { unfold queue_before_push. destruct (queue c); [contradiction | reflexivity]. }
    rewrite Hq.
    destruct (queue c) as [ | m q] eqn:Eq; [contradiction | ].
    unfold computeRelativeProgressInTime, queue.
    cbn -[Nat.eqb Nat.add].
    split; [reflexivity | ]. split; [reflexivity | ].
    split; [exists [mkMovement e f u (stored_duration d) s]; reflexivity | ].
    split; [reflexivity | ]. split.
    + intros i Hi.
      change (nth_error ((m :: q) ++ [mkMovement e f u (stored_duration d) s]) i
              = nth_error (m :: q) i).
      apply nth_error_app1. exact Hi.
    + intros now' duration. destruct (render_frame_by_frame_ c); reflexivity.
Qed.

(** ** Cancelling *)

Lemma update_idle now c :
  animate_ c = false -> update now c = (c, updateCamera c).
Proof. intro H. unfold update. rewrite H. reflexivity. Qed.

Lemma run_ticks_idle nows c :
  animate_ c = false -> fst (run (map Tick nows) c) = c.
Proof.
  intro H. induction nows as [ | now nows IH]; simpl.
  - reflexivity.
  - rewrite update_idle by exact H.
    destruct (run (map Tick nows) c) as [c2 ev2]. exact IH.
Qed.

(** C4. In any state [cancelTransition] empties the queue, sets the frame
    counter to 0 and the engine to idle, and leaves the frame-by-frame flag
    cleared; it publishes the "animation finished" message exactly once if
    the flag was set and not at all otherwise.  A second call changes nothing
    and publishes nothing.  Afterwards a tick leaves the controller as it is
    (it only refreshes the camera from the unchanged properties), and so does
    any number of ticks. *)
Theorem C4_cancelTransition c :
  let c' := fst (cancelTransition c) in
  queue c' = [] /\
  rendered_frames_counter_ c' = 0%Z /\
  animate_ c' = false /\
  render_frame_by_frame_ c' = false /\
  snd (cancelTransition c) =
    (if render_frame_by_frame_ c then [PublishFinishedAnimation] else []) /\
  cancelTransition c' = (c', []) /\
  (forall now, update now c' = (c', updateCamera c')) /\
  (forall nows, fst (run (map Tick nows) c') = c').
Proof.
  intro c'.
  assert (Hidle : animate_ c' = false).
  { subst c'. unfold cancelTransition. simpl.
    destruct (render_frame_by_frame_ c); reflexivity. }
  repeat split.
  - subst c'. unfold cancelTransition. simpl.
    destruct (render_frame_by_frame_ c); reflexivity.
  - subst c'. unfold cancelTransition. simpl.
    destruct (render_frame_by_frame_ c); reflexivity.
  - exact Hidle.
  - subst c'. unfold cancelTransition. simpl.
    destruct (render_frame_by_frame_ c) eqn:E; simpl; [reflexivity | exact E].
  - unfold cancelTransition. simpl.
    destruct (render_frame_by_frame_ c); reflexivity.
  - subst c'. destruct c as [[items cap] an rf fps cnt pa st ey fo upv fx pv].
    unfold cancelTransition. simpl. destruct rf; reflexivity.
  - intro now. apply update_idle, Hidle.
  - intro nows. apply run_ticks_idle, Hidle.
Qed.

(** ** The finishing tick *)

Lemma cancelTransition_keeps c :
  let c' := fst (cancelTransition c) in
  eye_point_property_ c' = eye_point_property_ c /\
  focus_point_property_ c' = focus_point_property_ c /\
  up_vector_property_ c' = up_vector_property_ c /\
  queue c' = [] /\ animate_ c' = false /\ rendered_frames_counter_ c' = 0%Z.
Proof.
  destruct c as [b an rf fps cnt pa st ey fo upv fx pv].
  unfold cancelTransition, queue. cbn. destruct rf; repeat split; reflexivity.
Qed.

(** The pose written by a tick of an animating engine: the interpolation
    from the first to the second element of the queue, at the space fraction
    of the time fraction, which is replaced by 1 when it is at least 1. *)
Lemma update_pose now c start goal rest :
  animate_ c = true -> queue c = start :: goal :: rest ->
  let t :=
    fst (computeRelativeProgressInTime now (transition_duration goal)
           (fst (pauseAnimationOnRequest c))) in
  let fraction :=
    computeRelativeProgressInSpace
      (if double_ge t (double_of_int 1) then double_of_int 1 else t)
      (interpolation_speed goal) in
  eye_point_property_ (fst (update now c)) =
    interpolate fraction (eye start) (eye goal) /\
  focus_point_property_ (fst (update now c)) =
    interpolate fraction (focus start) (focus goal) /\
  up_vector_property_ (fst (update now c)) =
    interpolate fraction (up start) (up goal).
Proof.
  intros Ea Eq t fraction.
  rewrite update_animating by (try exact Ea; rewrite Eq; simpl; lia).
  rewrite (animation_step_eq now c start goal rest Eq). cbv zeta. cbn [fst].
  fold t. fold fraction.
  match goal with
  | |- context [set_pose ?e ?f ?u ?c2] => set (c3 := set_pose e f u c2)
  end.
  assert (H3 : eye_point_property_ c3 =
                 interpolate fraction (eye start) (eye goal) /\
               focus_point_property_ c3 =
                 interpolate fraction (focus start) (focus goal) /\
               up_vector_property_ c3 =
                 interpolate fraction (up start) (up goal))
    by (repeat split).
  clearbody c3 fraction.
  destruct (double_ge t (double_of_int 1)); cbn [fst]; [ | exact H3].
  destruct (isMovementAvailable _); cbn [fst].
  - exact H3.
  - match goal with |- context [cancelTransition ?c4] =>
      destruct (cancelTransition_keeps c4) as (He & Hf & Hu & _)
    end.
    cbv zeta in He, Hf, Hu. rewrite He, Hf, Hu. exact H3.
Qed.

(** The state and the events of a tick whose time fraction has reached 1. *)
Lemma update_finished now c start goal rest :
  animate_ c = true -> queue c = start :: goal :: rest ->
  double_ge
    (fst (computeRelativeProgressInTime now (transition_duration goal)
            (fst (pauseAnimationOnRequest c)))) (double_of_int 1) = true ->
  let c1 := fst (pauseAnimationOnRequest c) in
  let c2 := snd (computeRelativeProgressInTime now (transition_duration goal) c1) in
  let fraction :=
    computeRelativeProgressInSpace (double_of_int 1) (interpolation_speed goal) in
  let c3 :=
    set_pose (interpolate fraction (eye start) (eye goal))
      (interpolate fraction (focus start) (focus goal))
      (interpolate fraction (up start) (up goal)) c2 in
  let c4 :=
    set_buffer
      (CircularBuffer.mk (goal :: rest)
         (CircularBuffer.capacity (cam_movements_buffer_ c))) c3 in
  fst (update now c) =
    match rest with
    | [] => fst (cancelTransition c4)
    | _ :: _ => prepareNextMovement (transition_duration goal) c4
    end /\
  In (SetDirection
        (Vector3.sub (interpolate fraction (focus start) (focus goal))
           (interpolate fraction (eye start) (eye goal))))
    (snd (update now c)) /\
  In (PublishCameraPose (interpolate fraction (eye start) (eye goal)))
    (snd (update now c)).
Proof.
  intros Ea Eq Hfin c1 c2 fraction c3 c4.
  rewrite update_animating by (try exact Ea; rewrite Eq; simpl; lia).
  rewrite (animation_step_eq now c start goal rest Eq). cbv zeta.
  rewrite Hfin.
  fold c1. fold c2. fold fraction. fold c3.
  assert (Hb : cam_movements_buffer_ c3 = cam_movements_buffer_ c)
    by apply buffer_before_pop.
  assert (Hpop : CircularBuffer.pop_front (cam_movements_buffer_ c3) =
                 CircularBuffer.mk (goal :: rest)
                   (CircularBuffer.capacity (cam_movements_buffer_ c))).
  { rewrite Hb. unfold CircularBuffer.pop_front. unfold queue in Eq.
    rewrite Eq. reflexivity. }
  rewrite Hpop. fold c4.
  assert (Havail : isMovementAvailable c4 =
                   match rest with [] => false | _ :: _ => true end).
  { unfold isMovementAvailable, CircularBuffer.size, c4.
    cbn [set_buffer cam_movements_buffer_ CircularBuffer.items].
    destruct rest; reflexivity. }
  rewrite Havail.
  assert (Hev : forall tail,
             In (SetDirection
                   (Vector3.sub (interpolate fraction (focus start) (focus goal))
                      (interpolate fraction (eye start) (eye goal))))
               ([SetFixedYawAxis true (up_vector_property_ c3);
                 SetDirection
                   (Vector3.sub (focus_point_property_ c3)
                      (eye_point_property_ c3));
                 PublishCameraPose (eye_point_property_ c3)] ++ tail) /\
             In (PublishCameraPose (interpolate fraction (eye start) (eye goal)))
               ([SetFixedYawAxis true (up_vector_property_ c3);
                 SetDirection
                   (Vector3.sub (focus_point_property_ c3)
                      (eye_point_property_ c3));
                 PublishCameraPose (eye_point_property_ c3)] ++ tail)).
  { intro tail. unfold c3. cbn [set_pose eye_point_property_
      focus_point_property_ up_vector_property_ app In]. tauto. }
  destruct rest as [ | m rest]; cbn [fst snd].
  - split; [reflexivity | ].
    split; apply in_or_app; left; apply in_or_app; right;
      rewrite <- app_assoc; apply Hev.
  - split; [reflexivity | ].
    split; apply in_or_app; left; apply in_or_app; right; apply Hev.
Qed.


(** ** Enqueuing from idle and the shape of the queue *)

Lemma queue_beginNewTransition_accepted now e f u d s c :
  (0 <= d)%Z -> buffer_ok c ->
  queue (beginNewTransition now e f u d s c) =
  queue_before_push s c ++ [mkMovement e f u (stored_duration d) s].
Proof.
  intros Hd Hok. rewrite beginNewTransition_accepted by assumption.
  reflexivity.
Qed.

Lemma enqueue_all_cons now m ms c :
  enqueue_all now (m :: ms) c =
  enqueue_all now ms
    (beginNewTransition now (eye m) (focus m) (up m) (transition_duration m)
       (interpolation_speed m) c).
Proof. reflexivity. Qed.

Lemma enqueue_all_length now ms c :
  engine_invariant c -> queue c <> [] ->
  Forall (fun m => (0 <= transition_duration m)%Z) ms ->
  length (queue (enqueue_all now ms c)) = (length (queue c) + length ms)%nat.
Proof.
  revert c. induction ms as [ | m ms IH]; intros c Hinv Hne Hvalid.
  - simpl. lia.
  - inversion Hvalid as [ | ? ? Hm Hms]; subst.
    rewrite enqueue_all_cons.
    assert (Hq : queue (beginNewTransition now (eye m) (focus m) (up m)
                          (transition_duration m) (interpolation_speed m) c)
                 = queue c ++ [mkMovement (eye m) (focus m) (up m)
                                 (stored_duration (transition_duration m))
                                 (interpolation_speed m)]).
    { rewrite queue_beginNewTransition_accepted
        by (try exact Hm; apply invariant_buffer_ok, Hinv).
      unfold queue_before_push. destruct (queue c); [contradiction | reflexivity]. }
    rewrite IH.
    + rewrite Hq, length_app. simpl. lia.
    + apply invariant_beginNewTransition, Hinv.
    + rewrite Hq. destruct (queue c); discriminate.
    + exact Hms.
Qed.

(** C2. In a reachable state: an accepted enqueue on an empty queue leaves
    exactly two elements, the current pose (current eye, focus and up
    properties, duration 0.001 s) followed by the requested descriptor, and
    sets the engine animating; enqueuing N >= 1 valid movements on an empty
    queue leaves N+1 elements; an animating engine has at least two queued
    elements; and the pose written by a tick of an animating engine is the
    interpolation from the element at position 0 to the element at
    position 1: each component of eye, focus and up is
    [start + s * (goal - start)] in the arithmetic of [Ogre::Real], where
    [s] is the space fraction, in the style of the element at position 1, of
    the time fraction computed from its duration (1.0 once that has reached
    1.0). *)
Theorem C2_idle_enqueue_and_queue_shape c :
  reachable c ->
  (forall now e f u d s,
     queue c = [] -> (0 <= d)%Z ->
     let c' := beginNewTransition now e f u d s c in
     queue c' =
       [ mkMovement (eye_point_property_ c) (focus_point_property_ c)
           (up_vector_property_ c) Duration_0_001 s;
         mkMovement e f u (stored_duration d) s ] /\
     animate_ c' = true) /\
  (forall now ms,
     queue c = [] -> ms <> [] ->
     Forall (fun m => (0 <= transition_duration m)%Z) ms ->
     length (queue (enqueue_all now ms c)) = S (length ms)) /\
  (animate_ c = true -> (2 <= length (queue c))%nat) /\
  (animate_ c = true ->
   forall now, exists start goal rest,
     queue c = start :: goal :: rest /\
     nth_error (queue c) 0 = Some start /\
     nth_error (queue c) 1 = Some goal /\
     let t :=
       fst (computeRelativeProgressInTime now (transition_duration goal)
              (fst (pauseAnimationOnRequest c))) in
     let s :=
       computeRelativeProgressInSpace
         (if double_ge t (double_of_int 1) then double_of_int 1 else t)
         (interpolation_speed goal) in
     let lerp (a b : Real) := real_add a (real_mul s (real_sub b a)) in
     let lerp3 (a b : Vec3) :=
       Vector3.mk (lerp (Vector3.x a) (Vector3.x b))
         (lerp (Vector3.y a) (Vector3.y b))
         (lerp (Vector3.z a) (Vector3.z b)) in
     eye_point_property_ (fst (update now c)) = lerp3 (eye start) (eye goal) /\
     focus_point_property_ (fst (update now c)) =
       lerp3 (focus start) (focus goal) /\
     up_vector_property_ (fst (update now c)) = lerp3 (up start) (up goal)).
Proof.
  intro Hr. pose proof (reachable_invariant c Hr) as Hinv.
  pose proof (invariant_buffer_ok c Hinv) as Hok.
  assert (Hfirst : forall now e f u d s,
             queue c = [] -> (0 <= d)%Z ->
             queue (beginNewTransition now e f u d s c) =
               [ current_pose_movement s c;
                 mkMovement e f u (stored_duration d) s ]).
  { intros now e f u d s Hq Hd.
    rewrite queue_beginNewTransition_accepted by assumption.
    unfold queue_before_push. rewrite Hq. reflexivity. }
  split; [ | split; [ | split]].
  - intros now e f u d s Hq Hd c'. split.
    + apply Hfirst; assumption.
    + unfold c'. rewrite beginNewTransition_accepted by assumption.
      reflexivity.
  - intros now ms Hq Hne Hvalid.
    destruct ms as [ | m ms]; [contradiction | ].
    inversion Hvalid as [ | ? ? Hm Hms]; subst.
    rewrite enqueue_all_cons.
    rewrite enqueue_all_length.
    + rewrite Hfirst by assumption. simpl. lia.
    + apply invariant_beginNewTransition, Hinv.
    + rewrite Hfirst by assumption. discriminate.
    + exact Hms.
  - intro Ea. apply Hinv, Ea.
  - intros Ea now.
    destruct Hinv as (_ & _ & Han & _). specialize (Han Ea).
    destruct (queue c) as [ | start [ | goal rest]] eqn:Eq;
      try (simpl in Han; lia).
    destruct (update_pose now c start goal rest Ea Eq) as (He & Hf & Hu).
    exists start, goal, rest.
    split; [reflexivity | ]. split; [reflexivity | ].
    split; [reflexivity | ].
    cbv zeta in He, Hf, Hu |- *.
    split; [exact He | ]. split; [exact Hf | exact Hu].
Qed.

(** The state after a tick whose time fraction is below 1. *)
Lemma update_unfinished now c start goal rest :
  animate_ c = true -> queue c = start :: goal :: rest ->
  double_ge
    (fst (computeRelativeProgressInTime now (transition_duration goal)
            (fst (pauseAnimationOnRequest c)))) (double_of_int 1) = false ->
  let c' := fst (update now c) in
  animate_ c' = true /\
  cam_movements_buffer_ c' = cam_movements_buffer_ c /\
  render_frame_by_frame_ c' = render_frame_by_frame_ c /\
  target_fps_ c' = target_fps_ c /\
  (pause_animation_duration_ c' <= 0)%Z /\
  rendered_frames_counter_ c' =
    (if render_frame_by_frame_ c then (rendered_frames_counter_ c + 1)%Z
     else rendered_frames_counter_ c) /\
  ((pause_animation_duration_ c <= 0)%Z ->
   transition_start_time_ c' = transition_start_time_ c) /\
  ((0 < pause_animation_duration_ c)%Z ->
   transition_start_time_ c' =
     (transition_start_time_ c + pause_animation_duration_ c)%Z).
Proof.
  intros Ea Eq Hnot c'. unfold c'.
  rewrite update_animating by (try exact Ea; rewrite Eq; simpl; lia).
  rewrite (animation_step_eq now c start goal rest Eq). cbv zeta.
  rewrite Hnot. cbn [fst].
  destruct (computeRelativeProgressInTime_keeps now (transition_duration goal)
              (fst (pauseAnimationOnRequest c)))
    as (Hb2 & Ha2 & Hr2 & Hs2 & Hp2 & _ & Hf2 & Hc2).
  destruct (pauseAnimationOnRequest_keeps c)
    as (Hb1 & Ha1 & Hr1 & Hf1 & Hc1 & _ & Hp1 & Hs1 & Hs1').
  cbv zeta in *.
  cbn [set_pose animate_ cam_movements_buffer_ render_frame_by_frame_
       target_fps_ pause_animation_duration_ rendered_frames_counter_
       transition_start_time_].
  rewrite Ha2, Ha1, Hb2, Hb1, Hr2, Hf2, Hf1, Hp2, Hc2, Hr1, Hc1, Hs2.
  repeat split; try assumption.
Qed.

(** ** Pausing *)

Lemma pauseAnimationOnRequest_idle_pause c :
  (pause_animation_duration_ c <= 0)%Z -> pauseAnimationOnRequest c = (c, []).
Proof.
  intro H. unfold pauseAnimationOnRequest.
  apply Rgt_dec_false. intro Hgt. apply toSec_gt_0 in Hgt. lia.
Qed.

Lemma pauseAnimationOnRequest_pending c :
  (0 < pause_animation_duration_ c)%Z ->
  pauseAnimationOnRequest c =
  (set_pause_animation_duration 0
     (set_transition_start_time
        (transition_start_time_ c + pause_animation_duration_ c) c),
   [Sleep (pause_animation_duration_ c)]).
Proof.
  intro H. unfold pauseAnimationOnRequest.
  apply Rgt_dec_true. apply toSec_gt_0. exact H.
Qed.

Lemma pauseAnimationOnRequest_twice c :
  pauseAnimationOnRequest (fst (pauseAnimationOnRequest c)) =
  (fst (pauseAnimationOnRequest c), []).
Proof.
  apply pauseAnimationOnRequest_idle_pause.
  destruct (Z.lt_ge_cases 0 (pause_animation_duration_ c)) as [Hp | Hn].
  - rewrite pauseAnimationOnRequest_pending by exact Hp. simpl. lia.
  - rewrite pauseAnimationOnRequest_idle_pause by lia. simpl. lia.
Qed.

(** The animating branch applies the pending pause and then proceeds as it
    does without one. *)
Lemma animation_step_after_pause now c :
  (2 <= length (queue c))%nat ->
  animation_step now c =
  (fst (animation_step now (fst (pauseAnimationOnRequest c))),
   snd (pauseAnimationOnRequest c)
   ++ snd (animation_step now (fst (pauseAnimationOnRequest c)))).
Proof.
  intro Hlen.
  assert (Hq : queue (fst (pauseAnimationOnRequest c)) = queue c).
  { unfold queue. f_equal. apply pauseAnimationOnRequest_keeps. }
  unfold animation_step at 2 3.
  rewrite pauseAnimationOnRequest_twice.
  unfold animation_step.
  destruct (pauseAnimationOnRequest c) as [c1 ev_pause].
  cbn [fst snd] in *. rewrite Hq.
  destruct (queue c) as [ | start [ | goal rest]]; try (simpl in Hlen; lia).
  destruct (computeRelativeProgressInTime now (transition_duration goal) c1)
    as [t c2].
  destruct (double_ge t (double_of_int 1)).
  - destruct (isMovementAvailable _).
    + reflexivity.
    + destruct (cancelTransition _). reflexivity.
  - reflexivity.
Qed.

Lemma fst_run_cons op ops c :
  fst (run (op :: ops) c) = fst (run ops (fst (step op c))).
Proof.
  cbn [run]. destruct (step op c) as [c1 ev1]. cbn [fst].
  destruct (run ops c1). reflexivity.
Qed.

Lemma fst_run_app ops1 ops2 c :
  fst (run (ops1 ++ ops2) c) = fst (run ops2 (fst (run ops1 c))).
Proof.
  revert c. induction ops1 as [ | op ops1 IH]; intro c; [reflexivity | ].
  cbn [app]. rewrite !fst_run_cons. apply IH.
Qed.

(** C9, amended.  A pause request overwrites the pending pause with the
    requested duration and changes nothing else.  A pending pause that is
    zero or negative has no effect when a tick looks at it.  A positive
    pending pause is applied by shifting the start time forward by exactly
    that duration and clearing the pending pause (after sleeping for it),
    with every other member unchanged; this happens at the start of a tick
    of an animating engine with at least two queued elements, which then
    proceeds as a tick without a pending pause; a tick of an engine that is
    not animating leaves the pending pause in place. *)
Theorem C9_pause_semantics d c :
  pauseAnimationCallback d c = set_pause_animation_duration d c /\
  ((pause_animation_duration_ c <= 0)%Z ->
   pauseAnimationOnRequest c = (c, [])) /\
  ((0 < pause_animation_duration_ c)%Z ->
   pauseAnimationOnRequest c =
   (set_pause_animation_duration 0
      (set_transition_start_time
         (transition_start_time_ c + pause_animation_duration_ c) c),
    [Sleep (pause_animation_duration_ c)])) /\
  (forall now,
     animate_ c = true -> (2 <= length (queue c))%nat ->
     update now c =
     (fst (update now (fst (pauseAnimationOnRequest c))),
      snd (pauseAnimationOnRequest c)
      ++ snd (update now (fst (pauseAnimationOnRequest c))))) /\
  (forall now, animate_ c = false -> fst (update now c) = c).
Proof.
  split; [reflexivity | ].
  split; [apply pauseAnimationOnRequest_idle_pause | ].
  split; [apply pauseAnimationOnRequest_pending | ].
  split.
  - intros now Ea Hlen.
    destruct (pauseAnimationOnRequest_keeps c) as (Hb1 & Ha1 & _).
    cbv zeta in Hb1, Ha1.
    assert (Hq : queue (fst (pauseAnimationOnRequest c)) = queue c)
      by (unfold queue; rewrite Hb1; reflexivity).
    rewrite (update_animating now c) by assumption.
    rewrite (update_animating now (fst (pauseAnimationOnRequest c)))
      by (rewrite ?Ha1, ?Hq; assumption).
    rewrite (animation_step_after_pause now c) by assumption.
    cbn [fst snd]. rewrite app_assoc. reflexivity.
  - intros now Ea. rewrite update_idle by exact Ea. reflexivity.
Qed.

(** The state after an accepted enqueue on an empty queue. *)
Lemma beginNewTransition_from_idle now e f u d s c :
  buffer_ok c -> queue c = [] -> (0 <= d)%Z ->
  let c' := beginNewTransition now e f u d s c in
  animate_ c' = true /\
  queue c' = [current_pose_movement s c; mkMovement e f u (stored_duration d) s] /\
  render_frame_by_frame_ c' = render_frame_by_frame_ c /\
  target_fps_ c' = target_fps_ c /\
  rendered_frames_counter_ c' = rendered_frames_counter_ c /\
  pause_animation_duration_ c' = pause_animation_duration_ c /\
  transition_start_time_ c' = now.
Proof.
  intros Hok Hq Hd c'. unfold c'.
  rewrite beginNewTransition_accepted by assumption.
  unfold queue_before_push, queue at 2.
  cbn [animate_ cam_movements_buffer_ CircularBuffer.items
       render_frame_by_frame_ target_fps_ rendered_frames_counter_
       pause_animation_duration_ transition_start_time_].
  rewrite Hq. repeat split.
Qed.

(** ** What a tick does to the queue *)

Lemma cancelTransition_capacity c :
  CircularBuffer.capacity (cam_movements_buffer_ (fst (cancelTransition c))) =
  CircularBuffer.capacity (cam_movements_buffer_ c).
Proof.
  destruct c as [b an rf fps cnt pa st ey fo upv fx pv].
  unfold cancelTransition. cbn. destruct rf; reflexivity.
Qed.

(** The queue and the capacity after a tick of an animating engine. *)
Lemma update_queue_cases now c start goal rest :
  animate_ c = true -> queue c = start :: goal :: rest ->
  CircularBuffer.capacity (cam_movements_buffer_ (fst (update now c))) =
    CircularBuffer.capacity (cam_movements_buffer_ c) /\
  (double_ge
     (fst (computeRelativeProgressInTime now (transition_duration goal)
             (fst (pauseAnimationOnRequest c)))) (double_of_int 1) = true ->
   queue (fst (update now c)) =
     match rest with [] => [] | _ :: _ => goal :: rest end) /\
  (double_ge
     (fst (computeRelativeProgressInTime now (transition_duration goal)
             (fst (pauseAnimationOnRequest c)))) (double_of_int 1) = false ->
   queue (fst (update now c)) = start :: goal :: rest).
Proof.
  intros Ea Eq.
  destruct (double_ge
              (fst (computeRelativeProgressInTime now (transition_duration goal)
                      (fst (pauseAnimationOnRequest c)))) (double_of_int 1))
    eqn:Hfin.
  - destruct (update_finished now c start goal rest Ea Eq Hfin) as (Hst & _).
    cbv zeta in Hst.
    assert (Hres : CircularBuffer.capacity
                     (cam_movements_buffer_ (fst (update now c))) =
                   CircularBuffer.capacity (cam_movements_buffer_ c) /\
                   queue (fst (update now c)) =
                     match rest with [] => [] | _ :: _ => goal :: rest end).
    { rewrite Hst. destruct rest as [ | m rest].
      - rewrite cancelTransition_capacity. split; [reflexivity | ].
        apply cancelTransition_keeps.
      - split; reflexivity. }
    destruct Hres as [Hcap Hq].
    split; [exact Hcap | ]. split; [intros _; exact Hq | discriminate].
  - destruct (update_unfinished now c start goal rest Ea Eq Hfin)
      as (_ & Hb & _).
    cbv zeta in Hb.
    split; [rewrite Hb; reflexivity | ].
    split; [discriminate | ].
    intros _. unfold queue in *. rewrite Hb. exact Eq.
Qed.

(** A tick never adds to the queue and never reorders it: afterwards the
    queue is what it was, or what it was without its front element, or
    empty; and the capacity of the buffer is what it was. *)
Theorem tick_only_consumes_queue now c :
  (queue (fst (update now c)) = queue c \/
   queue (fst (update now c)) = tl (queue c) \/
   queue (fst (update now c)) = []) /\
  CircularBuffer.capacity (cam_movements_buffer_ (fst (update now c))) =
    CircularBuffer.capacity (cam_movements_buffer_ c).
Proof.
  destruct (animate_ c && isMovementAvailable c) eqn:E.
  - apply andb_prop in E. destruct E as [Ea Hav].
    unfold isMovementAvailable, CircularBuffer.size in Hav.
    fold (queue c) in Hav. apply Nat.leb_le in Hav.
    destruct (queue c) as [ | start [ | goal rest]] eqn:Eq;
      try (simpl in Hav; lia).
    destruct (update_queue_cases now c start goal rest Ea Eq)
      as (Hcap & Hfin & Hnot).
    split; [ | exact Hcap].
    destruct (double_ge
                (fst (computeRelativeProgressInTime now
                        (transition_duration goal)
                        (fst (pauseAnimationOnRequest c)))) (double_of_int 1)).
    + rewrite (Hfin eq_refl). destruct rest; [right; right | right; left];
        reflexivity.
    + left. apply Hnot. reflexivity.
  - unfold update. rewrite E. split; [left | ]; reflexivity.
Qed.

Lemma cancelTransition_result c :
  snd (cancelTransition c) =
    (if render_frame_by_frame_ c then [PublishFinishedAnimation] else []) /\
  render_frame_by_frame_ (fst (cancelTransition c)) = false /\
  fixed_up_property_ (fst (cancelTransition c)) = fixed_up_property_ c.
Proof.
  destruct c as [b an rf fps cnt pa st ey fo upv fx pv].
  unfold cancelTransition. cbn. destruct rf; repeat split; reflexivity.
Qed.



(** The state after the tick that completes the last segment. *)
Lemma update_finished_last now c start goal :
  animate_ c = true -> queue c = [start; goal] ->
  double_ge
    (fst (computeRelativeProgressInTime now (transition_duration goal)
            (fst (pauseAnimationOnRequest c)))) (double_of_int 1) = true ->
  let c' := fst (update now c) in
  animate_ c' = false /\ queue c' = [] /\
  render_frame_by_frame_ c' = false /\
  rendered_frames_counter_ c' = 0%Z.
Proof.
  intros Ea Eq Hfin c'. unfold c'.
  destruct (update_finished now c start goal [] Ea Eq Hfin) as (Hst & _).
  cbv zeta in Hst.
  match type of Hst with _ = fst (cancelTransition ?c4) =>
    destruct (cancelTransition_keeps c4) as (_ & _ & _ & Hq4 & Han & Hcnt);
    destruct (cancelTransition_result c4) as (_ & Hrf & _)
  end.
  cbv zeta in Hq4, Han, Hcnt. rewrite <- Hst in *.
  repeat split; assumption.
Qed.


(** ** Frame-by-frame ticks do not read the clock *)

(** In frame-by-frame mode the result of a tick, state and calls alike, is
    the same whatever the wall clock shows: the animation is driven by the
    count of rendered frames alone. *)
Theorem frame_by_frame_tick_ignores_clock now1 now2 c :
  render_frame_by_frame_ c = true ->
  update now1 c = update now2 c.
Proof.
  intro Hrf.
  assert (Hstep : animation_step now1 c = animation_step now2 c).
  { unfold animation_step.
    destruct (pauseAnimationOnRequest_keeps c) as (_ & _ & Hr1 & _).
    cbv zeta in Hr1.
    destruct (pauseAnimationOnRequest c) as [c1 ev_pause]. cbn [fst] in Hr1.
    destruct (queue c1) as [ | start [ | goal rest]]; try reflexivity.
    assert (Hc : computeRelativeProgressInTime now1 (transition_duration goal) c1
                 = computeRelativeProgressInTime now2 (transition_duration goal) c1).
    { unfold computeRelativeProgressInTime. rewrite Hr1, Hrf. reflexivity. }
    rewrite Hc. reflexivity. }
  unfold update. rewrite Hstep. reflexivity.
Qed.

(** ** The calls made by the last tick of a transition *)


(** ** A pause leaves the progress where it was *)

(** On the wall clock, applying a pending pause of [p] and reading the clock
    [p] later gives the time fraction that the clock gave before the pause;
    the application is a sleep of [p]. *)
Theorem pause_preserves_time_fraction now d c :
  render_frame_by_frame_ c = false ->
  (0 < pause_animation_duration_ c)%Z ->
  fst (computeRelativeProgressInTime (now + pause_animation_duration_ c) d
         (fst (pauseAnimationOnRequest c))) =
  fst (computeRelativeProgressInTime now d c) /\
  snd (pauseAnimationOnRequest c) = [Sleep (pause_animation_duration_ c)].
Proof.
  intros Hrf Hp.
  rewrite pauseAnimationOnRequest_pending by exact Hp. cbn [fst snd].
  split; [ | reflexivity].
  unfold computeRelativeProgressInTime.
  cbn [set_pause_animation_duration set_transition_start_time
       render_frame_by_frame_ transition_start_time_].
  rewrite Hrf. cbn [fst]. f_equal. f_equal. lia.
Qed.

(** ** What holds between any two public operations *)

(** Whatever the sequence of public operations: the buffer holds no more
    than its capacity, which never falls below the initial 100; every queued
    movement has a positive duration, so the wall-clock fraction never
    divides by zero; the engine is idle exactly when the queue is empty, the
    queue never holds a single element, and an idle engine has its frame
    counter at zero. *)
Theorem reachable_state_invariant c :
  reachable c ->
  (100 <= CircularBuffer.capacity (cam_movements_buffer_ c))%nat /\
  (length (queue c) <= CircularBuffer.capacity (cam_movements_buffer_ c))%nat /\
  Forall (fun m => toSec (transition_duration m) > 0) (queue c) /\
  (animate_ c = false <-> queue c = []) /\
  length (queue c) <> 1%nat /\
  (animate_ c = false -> rendered_frames_counter_ c = 0%Z).
Proof.
  intro Hr. destruct (reachable_invariant c Hr)
    as (Hcap & Hsize & Han & Hidle & Hpos).
  split; [exact Hcap | ]. split; [exact Hsize | ]. split.
  { apply Forall_impl with (2 := Hpos). intros m Hm. apply toSec_gt_0, Hm. }
  split; [ | split].
  - split; [intro H; apply Hidle, H | ].
    intro Hq. destruct (animate_ c) eqn:Ea; [ | reflexivity].
    specialize (Han eq_refl). rewrite Hq in Han. simpl in Han. lia.
  - destruct (animate_ c) eqn:Ea.
    + specialize (Han eq_refl). lia.
    + destruct (Hidle eq_refl) as [Hq _]. rewrite Hq. discriminate.
  - intro H. apply Hidle, H.
Qed.

(** ** Trajectories *)

Lemma Rge_dec_toSec (d : Duration) (T : Type) (u v : T) :
  (if Rge_dec (toSec d) 0 then u else v) = (if (0 <=? d)%Z then u else v).
Proof.
  destruct (Z.leb_spec 0 d) as [H | H].
  - apply Rge_dec_true, toSec_ge_0, H.
  - apply Rge_dec_false. intro Hge. apply toSec_ge_0 in Hge. lia.
Qed.

Lemma beginNewTransition_keeps_flag now e f u d s c :
  buffer_ok c ->
  render_frame_by_frame_ (beginNewTransition now e f u d s c) =
  render_frame_by_frame_ c.
Proof.
  intro Hok. destruct (Z.lt_ge_cases d 0) as [Hn | Hp].
  - rewrite beginNewTransition_rejected by exact Hn. reflexivity.
  - rewrite beginNewTransition_accepted by assumption. reflexivity.
Qed.

(** The loop of [cameraTrajectoryCallback] on a queue that is not empty. *)
Lemma trajectory_loop_animating now ms c :
  engine_invariant c -> queue c <> [] ->
  let c' :=
    fold_left
      (fun c cam_movement =>
         if Rge_dec (toSec (transition_duration cam_movement)) 0 then
           beginNewTransition now (eye cam_movement) (focus cam_movement)
             (up cam_movement) (transition_duration cam_movement)
             (interpolation_speed cam_movement) c
         else c) ms c in
  queue c' = queue c ++ accepted_movements ms /\
  (animate_ c = true -> animate_ c' = true) /\
  render_frame_by_frame_ c' = render_frame_by_frame_ c.
Proof.
  revert c. induction ms as [ | m ms IH]; intros c Hinv Hne.
  - cbn. rewrite app_nil_r. repeat split. intro H; exact H.
  - cbn [fold_left]. rewrite Rge_dec_toSec.
    unfold accepted_movements. cbn [filter].
    destruct (Z.leb_spec 0 (transition_duration m)) as [Hd | Hd].
    + pose proof (invariant_buffer_ok c Hinv) as Hok.
      assert (Hq : queue (beginNewTransition now (eye m) (focus m) (up m)
                            (transition_duration m) (interpolation_speed m) c)
                   = queue c ++
                     [mkMovement (eye m) (focus m) (up m)
                        (stored_duration (transition_duration m))
                        (interpolation_speed m)]).
      { rewrite queue_beginNewTransition_accepted by assumption.
        unfold queue_before_push. destruct (queue c); [contradiction | ].
        reflexivity. }
      destruct (IH (beginNewTransition now (eye m) (focus m) (up m)
                      (transition_duration m) (interpolation_speed m) c))
        as (IHq & IHa & IHr).
      { apply invariant_beginNewTransition, Hinv. }
      { rewrite Hq. destruct (queue c); discriminate. }
      cbv zeta in IHq, IHa, IHr. cbv zeta.
      rewrite IHq, IHr, Hq, beginNewTransition_keeps_flag by exact Hok.
      unfold accepted_movements. cbn [map]. rewrite <- app_assoc.
      split; [reflexivity | ]. split; [ | reflexivity].
      intros _. apply IHa.
      rewrite beginNewTransition_accepted by assumption. reflexivity.
    + apply (IH c Hinv Hne).
Qed.

(** The loop of [cameraTrajectoryCallback] on an empty queue. *)
Lemma trajectory_loop_idle now ms c :
  engine_invariant c -> queue c = [] ->
  let c' :=
    fold_left
      (fun c cam_movement =>
         if Rge_dec (toSec (transition_duration cam_movement)) 0 then
           beginNewTransition now (eye cam_movement) (focus cam_movement)
             (up cam_movement) (transition_duration cam_movement)
             (interpolation_speed cam_movement) c
         else c) ms c in
  queue c' =
    match accepted_movements ms with
    | [] => []
    | m :: _ =>
        current_pose_movement (interpolation_speed m) c :: accepted_movements ms
    end /\
  animate_ c' =
    match accepted_movements ms with [] => animate_ c | _ :: _ => true end /\
  render_frame_by_frame_ c' = render_frame_by_frame_ c.
Proof.
  induction ms as [ | m ms IH]; intros Hinv Hq.
  - cbn. rewrite Hq. repeat split.
  - cbn [fold_left]. rewrite Rge_dec_toSec.
    unfold accepted_movements. cbn [filter].
    destruct (Z.leb_spec 0 (transition_duration m)) as [Hd | Hd].
    + pose proof (invariant_buffer_ok c Hinv) as Hok.
      destruct (beginNewTransition_from_idle now (eye m) (focus m) (up m)
                  (transition_duration m) (interpolation_speed m) c Hok Hq Hd)
        as (Ea1 & Eq1 & Hr1 & _).
      cbv zeta in Ea1, Eq1, Hr1.
      destruct (trajectory_loop_animating now ms
                  (beginNewTransition now (eye m) (focus m) (up m)
                     (transition_duration m) (interpolation_speed m) c))
        as (Hq' & Ha' & Hr').
      { apply invariant_beginNewTransition, Hinv. }
      { rewrite Eq1. discriminate. }
      cbv zeta in Hq', Ha', Hr'. cbv zeta.
      rewrite Hq', Hr', Hr1, Eq1, (Ha' Ea1).
      cbn [map interpolation_speed app]. repeat split.
    + apply (IH Hinv Hq).
Qed.

(** A trajectory received by an idle engine: the entries with a negative
    duration are skipped and the others are queued in their order, with
    durations of zero stored as 0.001 s, behind one element holding the
    current pose and the interpolation style of the first accepted entry;
    the engine animates exactly when an entry was accepted.  A non-empty
    trajectory that asks for frame-by-frame rendering raises the
    frame-by-frame flag even when every entry is skipped; an empty
    trajectory changes nothing. *)
Theorem trajectory_on_idle_engine now ct c :
  reachable c -> queue c = [] ->
  let c' := cameraTrajectoryCallback now ct c in
  queue c' =
    match accepted_movements (trajectory ct) with
    | [] => []
    | m :: _ =>
        current_pose_movement (interpolation_speed m) c
        :: accepted_movements (trajectory ct)
    end /\
  animate_ c' =
    match accepted_movements (trajectory ct) with
    | [] => false
    | _ :: _ => true
    end /\
  render_frame_by_frame_ c' =
    match trajectory ct with
    | [] => render_frame_by_frame_ c
    | _ :: _ => (render_frame_by_frame ct >? 0)%Z || render_frame_by_frame_ c
    end /\
  (trajectory ct = [] -> c' = c).
Proof.
  intros Hr Hq c'. pose proof (reachable_invariant c Hr) as Hinv.
  assert (Hidle : animate_ c = false).
  { destruct (animate_ c) eqn:Ea; [ | reflexivity].
    destruct Hinv as (_ & _ & Han & _). specialize (Han Ea).
    rewrite Hq in Han. simpl in Han. lia. }
  unfold c', cameraTrajectoryCallback.
  destruct (trajectory ct) as [ | m ms] eqn:Et.
  - cbn. rewrite Hq, Hidle. repeat split.
  - set (c0 := if (render_frame_by_frame ct >? 0)%Z
               then set_publish_view_images true
                      (set_target_fps (frames_per_second ct)
                         (set_render_frame_by_frame true c))
               else c).
    assert (H0 : engine_invariant c0 /\ queue c0 = [] /\
                 animate_ c0 = false /\
                 (forall s, current_pose_movement s c0
                            = current_pose_movement s c) /\
                 render_frame_by_frame_ c0 =
                   (render_frame_by_frame ct >? 0)%Z || render_frame_by_frame_ c).
    { unfold c0. destruct (render_frame_by_frame ct >? 0)%Z;
        (split; [exact Hinv | ]; split; [exact Hq | ];
         split; [exact Hidle | ]; split; [intro; reflexivity | reflexivity]). }
    clearbody c0. destruct H0 as (Hinv0 & Hq0 & Ha0 & Hcur & Hrf0).
    destruct (trajectory_loop_idle now (m :: ms) c0 Hinv0 Hq0)
      as (Hq' & Ha' & Hr').
    cbv zeta in Hq', Ha', Hr'.
    rewrite Hq', Ha', Hr', Ha0, Hrf0.
    split; [ | split; [reflexivity | split; [reflexivity | discriminate]]].
    destruct (accepted_movements (m :: ms)); [reflexivity | ].
    rewrite Hcur. reflexivity.
Qed.

(** ** The distance between eye and focus *)


(** ** Transitions started by the view helpers *)

(** Taking over from a previous view of the same class on an idle engine
    with a non-negative default transition time: the properties jump to the
    pose of the previous view and the queue holds that pose followed by the
    controller's own former pose, so the animation runs from the previous
    view to this one.  A previous view of another class changes nothing. *)
Theorem transitionFrom_previous_view now dt ds fvc c :
  buffer_ok c -> queue c = [] -> (0 <= dt)%Z ->
  let c' := transitionFrom now dt ds (Some fvc) c in
  queue c' =
    [ mkMovement (eye_point_property_ fvc) (focus_point_property_ fvc)
        (up_vector_property_ fvc) Duration_0_001 ds;
      mkMovement (eye_point_property_ c) (focus_point_property_ c)
        (up_vector_property_ c) (stored_duration dt) ds ] /\
  animate_ c' = true /\
  eye_point_property_ c' = eye_point_property_ fvc /\
  focus_point_property_ c' = focus_point_property_ fvc /\
  up_vector_property_ c' = up_vector_property_ fvc /\
  transitionFrom now dt ds None c = c.
Proof.
  intros Hok Hq Hd c'. unfold c', transitionFrom. cbv zeta.
  set (c0 := set_pose (eye_point_property_ fvc) (focus_point_property_ fvc)
               (up_vector_property_ fvc) c).
  assert (Hok0 : buffer_ok c0) by exact Hok.
  assert (Hq0 : queue c0 = []) by exact Hq.
  destruct (beginNewTransition_from_idle now (eye_point_property_ c)
              (focus_point_property_ c) (up_vector_property_ c) dt ds c0
              Hok0 Hq0 Hd) as (Ea & Eq & _).
  cbv zeta in Ea, Eq.
  split; [exact Eq | ]. split; [exact Ea | ].
  rewrite beginNewTransition_accepted by assumption.
  repeat split.
Qed.

(** ** Writing the pose while a transition runs *)

Lemma pauseAnimationOnRequest_set_pose e f u c :
  pauseAnimationOnRequest (set_pose e f u c) =
  (set_pose e f u (fst (pauseAnimationOnRequest c)),
   snd (pauseAnimationOnRequest c)).
Proof.
  destruct c as [b an rf fps cnt pa st ey fo upv fx pv].
  unfold pauseAnimationOnRequest.
  cbn [set_pose pause_animation_duration_].
  destruct (Rgt_dec (toSec pa) 0); reflexivity.
Qed.

Lemma computeRelativeProgressInTime_set_pose now d e f u c :
  computeRelativeProgressInTime now d (set_pose e f u c) =
  (fst (computeRelativeProgressInTime now d c),
   set_pose e f u (snd (computeRelativeProgressInTime now d c))).
Proof.
  destruct c as [b an rf fps cnt pa st ey fo upv fx pv].
  unfold computeRelativeProgressInTime.
  cbn [set_pose render_frame_by_frame_]. destruct rf; reflexivity.
Qed.

Lemma set_pose_set_pose e1 f1 u1 e2 f2 u2 c :
  set_pose e1 f1 u1 (set_pose e2 f2 u2 c) = set_pose e1 f1 u1 c.
Proof. reflexivity. Qed.

(** While the engine animates, a pose written directly to the properties
    does not survive the next tick: the tick behaves exactly, in state and
    in calls, as if the write had not happened.  (The mouse handler cancels
    the transition before it moves the camera.) *)
Theorem tick_overwrites_written_pose now e f u c :
  animate_ c = true -> (2 <= length (queue c))%nat ->
  update now (set_pose e f u c) = update now c.
Proof.
  intros Ea Hlen.
  assert (Hstep : animation_step now (set_pose e f u c)
                  = animation_step now c).
  { unfold animation_step. rewrite pauseAnimationOnRequest_set_pose.
    destruct (pauseAnimationOnRequest_keeps c) as (Hb & _).
    cbv zeta in Hb.
    destruct (pauseAnimationOnRequest c) as [c1 ev_pause]. cbn [fst snd] in *.
    change (queue (set_pose e f u c1)) with (queue c1).
    assert (Hq : queue c1 = queue c) by (unfold queue; rewrite Hb; reflexivity).
    rewrite Hq.
    destruct (queue c) as [ | start [ | goal rest]];
      try (simpl in Hlen; lia).
    rewrite computeRelativeProgressInTime_set_pose.
    destruct (computeRelativeProgressInTime now (transition_duration goal) c1)
      as [t c2].
    cbn [fst snd]. rewrite !set_pose_set_pose. reflexivity. }
  rewrite (update_animating now c) by assumption.
  rewrite (update_animating now (set_pose e f u c)) by assumption.
  rewrite Hstep. reflexivity.
Qed.

End Engine_properties.

(** * The engine in exact arithmetic *)

#[local] Existing Instance exact_arithmetic.

(** The test [>= 1.0] and the two quotients, over the reals. *)
Lemma double_ge_exact_true (a : R) :
  a >= 1 -> @double_ge exact_arithmetic a (double_of_int 1) = true.
Proof. intro H. cbn. apply Rge_dec_true, H. Qed.

Lemma double_ge_exact_false (a : R) :
  ~ a >= 1 -> @double_ge exact_arithmetic a (double_of_int 1) = false.
Proof. intro H. cbn. apply Rge_dec_false, H. Qed.

Lemma computeRelativeProgressInTime_divisor now d
    (c : @Controller exact_arithmetic) :
  fst (computeRelativeProgressInTime now d c) =
  (if render_frame_by_frame_ c then IZR (rendered_frames_counter_ c)
   else toSec (now - transition_start_time_ c))
  / progress_divisor d c.
Proof.
  unfold computeRelativeProgressInTime, progress_divisor.
  destruct (render_frame_by_frame_ c); reflexivity.
Qed.

(** ** The interpolation curves *)

Lemma spaceFraction_0 (s : InterpolationSpeed) :
  computeRelativeProgressInSpace 0 s = 0.
Proof.
  destruct s; cbn; rewrite ?Rmult_0_l, ?Rplus_0_l, ?cos_0, ?cos_PI2; lra.
Qed.

Lemma spaceFraction_1 (s : InterpolationSpeed) :
  computeRelativeProgressInSpace 1 s = 1.
Proof.
  destruct s; cbn; rewrite ?Rmult_1_l.
  - rewrite cos_PI2. lra.
  - replace (PI / 2 + PI / 2) with PI by lra. rewrite cos_PI. lra.
  - reflexivity.
  - rewrite cos_PI. lra.
  - rewrite cos_PI. lra.
Qed.

(** C3. For each of the styles RISING, DECLINING, FULL and WAVE (and for an
    unrecognized style, which takes the WAVE branch) the space fraction at
    time fraction 0 is 0 and at time fraction 1 is 1, within the tolerance
    1e-6; in real arithmetic the two values are exact. *)
Theorem C3_space_fraction_endpoints (s : InterpolationSpeed) :
  Rabs (computeRelativeProgressInSpace (A := exact_arithmetic) 0 s - 0)
    <= 1 / 1000000 /\
  Rabs (computeRelativeProgressInSpace (A := exact_arithmetic) 1 s - 1)
    <= 1 / 1000000.
Proof.
  rewrite spaceFraction_0, spaceFraction_1.
  replace (0 - 0) with 0 by ring. replace (1 - 1) with 0 by ring.
  rewrite Rabs_R0. lra.
Qed.

(** On the wall clock the test [>= 1.0] of the tick succeeds exactly when
    the clock has reached the start time, moved by the pending pause, plus
    the duration. *)
Lemma wall_clock_test now d (c : @Controller exact_arithmetic) :
  render_frame_by_frame_ c = false -> (0 < d)%Z ->
  double_ge
    (fst (computeRelativeProgressInTime now d (fst (pauseAnimationOnRequest c))))
    (double_of_int 1) =
  (transition_start_time_ c + Z.max 0 (pause_animation_duration_ c) + d
   <=? now)%Z.
Proof.
  intros Hrf Hd.
  destruct (pauseAnimationOnRequest_keeps c)
    as (_ & _ & Hr1 & _ & _ & _ & _ & Hs0 & Hs1).
  cbv zeta in Hr1, Hs0, Hs1.
  unfold computeRelativeProgressInTime. rewrite Hr1, Hrf. cbn [fst].
  assert (Hst : transition_start_time_ (fst (pauseAnimationOnRequest c)) =
                (transition_start_time_ c
                 + Z.max 0 (pause_animation_duration_ c))%Z).
  { destruct (Z.lt_ge_cases 0 (pause_animation_duration_ c)) as [Hp | Hp].
    - rewrite Hs1 by exact Hp. lia.
    - rewrite Hs0 by lia. lia. }
  rewrite Hst.
  destruct (Z.leb_spec
              (transition_start_time_ c
               + Z.max 0 (pause_animation_duration_ c) + d) now) as [Hle | Hlt].
  - apply double_ge_exact_true. apply fraction_ge_1; [exact Hd | lia].
  - apply double_ge_exact_false. intro H.
    apply fraction_ge_1 in H; [lia | exact Hd].
Qed.

(** ** Enqueuing at concrete states *)

Lemma C5_negative_duration_rejected_witness :
  toSec (-1) < 0 /\
  step (Enqueue 7 (Vector3_exact 0 0 10) Vector3.ZERO Vector3.UNIT_Z (-1) FULL)
    (initial 0) = (initial 0, []).
Proof.
  assert (H : toSec (-1) < 0) by (unfold toSec; lra).
  split; [exact H | ].
  exact (C5_negative_duration_rejected 7 (Vector3_exact 0 0 10) Vector3.ZERO
           Vector3.UNIT_Z (-1)%Z FULL (initial 0) H).
Defined.

Lemma C8_enqueue_grows_capacity_witness :
  CircularBuffer.capacity
    (cam_movements_buffer_
       (beginNewTransition 5 (Vector3_exact 1 2 3) Vector3.ZERO Vector3.UNIT_Z
          2000000000 RISING full_controller)) = 22%nat /\
  queue
    (beginNewTransition 5 (Vector3_exact 1 2 3) Vector3.ZERO Vector3.UNIT_Z
       2000000000 RISING full_controller) =
  queue full_controller ++
  [mkMovement (Vector3_exact 1 2 3) Vector3.ZERO Vector3.UNIT_Z 2000000000
     RISING].
Proof.
  assert (Hd : (0 <= 2000000000)%Z) by lia.
  assert (Hok : buffer_ok full_controller) by (split; simpl; lia).
  exact (proj1 (C8_enqueue_grows_capacity 5 (Vector3_exact 1 2 3) Vector3.ZERO
                  Vector3.UNIT_Z 2000000000%Z RISING full_controller Hd Hok)
           eq_refl).
Defined.

Lemma C10_enqueue_while_animating_appends_witness :
  transition_start_time_
    (beginNewTransition 5 (Vector3_exact 1 2 3) Vector3.ZERO Vector3.UNIT_Z
       2000000000 RISING full_controller) =
  transition_start_time_ full_controller.
Proof.
  assert (Hne : queue full_controller <> []) by discriminate.
  assert (Hsize : (length (queue full_controller)
                   <= CircularBuffer.capacity
                        (cam_movements_buffer_ full_controller))%nat)
    by (simpl; lia).
  exact (proj1 (C10_enqueue_while_animating_appends 5 (Vector3_exact 1 2 3)
                  Vector3.ZERO Vector3.UNIT_Z 2000000000%Z RISING
                  full_controller Hne Hsize)).
Defined.

(** ** The finishing tick in exact arithmetic *)

Lemma interpolate_1 (a b : @Vec3 exact_arithmetic) : interpolate 1 a b = b.
Proof.
  unfold interpolate. apply Vector3_eq_intro; cbn; ring.
Qed.



Lemma animating_controller_state :
  reachable animating_controller /\
  animate_ animating_controller = true /\
  queue animating_controller =
    [ mkMovement (Vector3_exact 5 5 10) Vector3.ZERO Vector3.UNIT_Z
        Duration_0_001 FULL;
      mkMovement (Vector3_exact 0 0 10) Vector3.ZERO Vector3.UNIT_Z
        1000000000 FULL ] /\
  render_frame_by_frame_ animating_controller = false /\
  pause_animation_duration_ animating_controller = 0%Z /\
  transition_start_time_ animating_controller = 0%Z.
Proof.
  split.
  - exact (reachable_step
             (Enqueue 0 (Vector3_exact 0 0 10) Vector3.ZERO Vector3.UNIT_Z
                1000000000 FULL) (initial 0) (reachable_initial 0)).
  - unfold animating_controller.
    rewrite beginNewTransition_accepted by (try lia; split; simpl; lia).
    repeat split.
Qed.

(** On the constructor state an enqueue leaves the constructor pose in front
    of the requested movement; and in exact arithmetic the tick half a second
    into the movement of one second of [animating_controller], in the style
    FULL, writes the eye half way between the two. *)
Lemma C2_idle_enqueue_and_queue_shape_witness :
  (queue
     (beginNewTransition 3 (Vector3_exact 0 0 10) Vector3.ZERO Vector3.UNIT_Z
        1000000000 FULL (initial 0)) =
     [ mkMovement (Vector3_exact 5 5 10) Vector3.ZERO Vector3.UNIT_Z
         Duration_0_001 FULL;
       mkMovement (Vector3_exact 0 0 10) Vector3.ZERO Vector3.UNIT_Z
         1000000000 FULL ] /\
   animate_
     (beginNewTransition 3 (Vector3_exact 0 0 10) Vector3.ZERO Vector3.UNIT_Z
        1000000000 FULL (initial 0)) = true) /\
  eye_point_property_ (fst (update 500000000 animating_controller)) =
    Vector3_exact (5 / 2) (5 / 2) 10.
Proof.
  split.
  - assert (Hq : queue (A := exact_arithmetic) (initial 0) = [])
      by reflexivity.
    assert (Hd : (0 <= 1000000000)%Z) by lia.
    exact (proj1 (C2_idle_enqueue_and_queue_shape (initial 0)
                    (reachable_initial 0))
             3%Z (Vector3_exact 0 0 10) Vector3.ZERO Vector3.UNIT_Z
             1000000000%Z FULL Hq Hd).
  - destruct animating_controller_state as (Hr & Ea & Eq & Hrf & Hp & Hst).
    destruct (proj2 (proj2 (proj2
                (C2_idle_enqueue_and_queue_shape animating_controller Hr)))
                Ea 500000000%Z)
      as (start & goal & rest & Hq & _ & _ & He & _).
    rewrite Eq in Hq. injection Hq as <- <- _.
    cbv zeta in He. rewrite He.
    cbn [transition_duration interpolation_speed eye] in *.
    rewrite wall_clock_test by (try exact Hrf; lia).
    rewrite Hst, Hp. cbn [Z.max Z.add Z.leb Z.compare Pos.compare
                          Pos.compare_cont].
    rewrite pauseAnimationOnRequest_idle_pause by lia. cbn [fst].
    unfold computeRelativeProgressInTime. rewrite Hrf, Hst. cbn.
    apply Vector3_eq_intro; cbn; unfold toSec; cbn; lra.
Defined.

(** ** Pausing *)

(** C9 as stated fails: a request for a pause of zero is not a no-op.  On
    the engine animating a movement of one second, a pause of 5 s is
    requested; the tick at 0.1 s then shifts the start time to 5 s.  When a
    pause of zero is requested in between, it replaces the pending pause and
    the same tick leaves the start time at 0. *)
Lemma C9_counterexample :
  transition_start_time_
    (fst (run [PauseFor 5000000000; Tick 100000000] animating_controller))
    = 5000000000%Z /\
  transition_start_time_
    (fst (run [PauseFor 5000000000; PauseFor 0; Tick 100000000]
            animating_controller))
    = 0%Z.
Proof.
  destruct animating_controller_state as (_ & Ea & Eq & Hrf & Hp & Hst).
  rewrite !fst_run_cons. cbn [run step fst].
  generalize dependent animating_controller. intros c Ea Eq Hrf Hp Hst.
  split.
  - destruct (update_unfinished 100000000 (pauseAnimationCallback 5000000000 c)
                _ _ [] Ea Eq) as (_ & _ & _ & _ & _ & _ & _ & Hshift).
    { rewrite wall_clock_test by (try exact Hrf; cbn; lia).
      cbn [pauseAnimationCallback set_pause_animation_duration
           pause_animation_duration_ transition_start_time_
           transition_duration].
      rewrite Hst. reflexivity. }
    rewrite Hshift
      by (cbn [pauseAnimationCallback set_pause_animation_duration
               pause_animation_duration_]; lia).
    cbn [pauseAnimationCallback set_pause_animation_duration
         pause_animation_duration_ transition_start_time_].
    rewrite Hst. reflexivity.
  - destruct (update_unfinished 100000000
                (pauseAnimationCallback 0
                   (pauseAnimationCallback 5000000000 c))
                _ _ [] Ea Eq) as (_ & _ & _ & _ & _ & _ & Hkeep & _).
    { rewrite wall_clock_test by (try exact Hrf; cbn; lia).
      cbn [pauseAnimationCallback set_pause_animation_duration
           pause_animation_duration_ transition_start_time_
           transition_duration].
      rewrite Hst. reflexivity. }
    rewrite Hkeep
      by (cbn [pauseAnimationCallback set_pause_animation_duration
               pause_animation_duration_]; lia).
    cbn [pauseAnimationCallback set_pause_animation_duration
         transition_start_time_].
    exact Hst.
Qed.

Lemma C9_pause_semantics_witness :
  pauseAnimationOnRequest (pauseAnimationCallback 5000000000 full_controller) =
  (set_pause_animation_duration 0
     (set_transition_start_time 5000000000
        (pauseAnimationCallback 5000000000 full_controller)),
   [Sleep 5000000000]).
Proof.
  assert (Hp : (0 < pause_animation_duration_
                      (pauseAnimationCallback 5000000000 full_controller))%Z)
    by (cbn [pauseAnimationCallback set_pause_animation_duration
             pause_animation_duration_]; lia).
  exact (proj1 (proj2 (proj2 (C9_pause_semantics 0%Z
                                (pauseAnimationCallback 5000000000
                                   full_controller)))) Hp).
Defined.

(** ** An enqueue from idle followed by a tick, on the wall clock *)

Lemma Vector3_sub_diag (a : @Vec3 exact_arithmetic) :
  Vector3.sub a a = Vector3.ZERO.
Proof. apply Vector3_eq_intro; cbn; ring. Qed.

(** In exact arithmetic the tick that completes a segment writes the pose of
    the goal. *)
Lemma idle_enqueue_then_tick now now' e f u d s
    (c : @Controller exact_arithmetic) :
  buffer_ok c -> queue c = [] -> (0 <= d)%Z ->
  render_frame_by_frame_ c = false ->
  (pause_animation_duration_ c <= 0)%Z ->
  (now + stored_duration d <= now')%Z ->
  let c' := beginNewTransition now e f u d s c in
  queue (fst (update now' c')) = [] /\
  animate_ (fst (update now' c')) = false /\
  eye_point_property_ (fst (update now' c')) = e /\
  focus_point_property_ (fst (update now' c')) = f /\
  up_vector_property_ (fst (update now' c')) = u /\
  In (SetDirection (Vector3.sub f e)) (snd (update now' c')) /\
  In (PublishCameraPose e) (snd (update now' c')).
Proof.
  intros Hok Hq Hd Hrf Hpause Hnow c'.
  pose (start := current_pose_movement s c).
  pose (goal := mkMovement e f u (stored_duration d) s).
  destruct (beginNewTransition_from_idle now e f u d s c Hok Hq Hd)
    as (Ea & Eq & Hrf' & _ & _ & Hp' & Hst').
  fold c' in Ea, Eq, Hrf', Hp', Hst'. fold start in Eq. fold goal in Eq.
  clearbody c'.
  assert (Hfin : double_ge
                   (fst (computeRelativeProgressInTime now'
                           (transition_duration goal)
                           (fst (pauseAnimationOnRequest c'))))
                   (double_of_int 1) = true).
  { rewrite wall_clock_test
      by (try (rewrite Hrf'; exact Hrf); apply stored_duration_pos, Hd).
    apply Z.leb_le. cbn [goal transition_duration]. lia. }
  destruct (update_finished now' c' start goal [] Ea Eq Hfin)
    as (Hst & Hdir & Hpub).
  destruct (update_pose now' c' start goal [] Ea Eq) as (He & Hf & Hu).
  destruct (update_finished_last now' c' start goal Ea Eq Hfin)
    as (Han & Hq' & _).
  cbv zeta in Hdir, Hpub, He, Hf, Hu, Han, Hq'. clear Hst.
  rewrite Hfin in He, Hf, Hu.
  rewrite spaceFraction_1, !interpolate_1 in *.
  repeat split; assumption.
Qed.

(** ** The direction handed to the camera *)

(** The mouse path never brings the eye onto the focus: when [move_eye]
    changes the eye, the eye stays further than the minimum of the distance
    property from the focus, so the direction it leaves for the camera is
    not the zero vector. *)
Lemma move_eye_keeps_separation orientation x y z
    (c : @Controller exact_arithmetic) :
  move_eye orientation x y z c = c \/
  Vector3.sub (focus_point_property_ (move_eye orientation x y z c))
    (eye_point_property_ (move_eye orientation x y z c)) <> Vector3.ZERO.
Proof.
  unfold move_eye. cbv zeta.
  set (new_position :=
         Vector3.add (eye_point_property_ c)
           (orientation (Vector3.mk x y z))).
  clearbody new_position.
  destruct (real_gt _ real_distance_min) eqn:Hfar; [right | left; reflexivity].
  cbn [set_pose focus_point_property_ eye_point_property_].
  intro Hzero.
  cbn [real_gt exact_arithmetic] in Hfar.
  destruct (Rgt_dec _ _) as [Hgt | Hle] in Hfar; [clear Hfar | discriminate].
  unfold Vector3.sub, Vector3.ZERO in Hzero.
  injection Hzero as H1 H2 H3. cbn in H1, H2, H3.
  assert (Hx : Vector3.x (focus_point_property_ c) = Vector3.x new_position)
    by lra.
  assert (Hy : Vector3.y (focus_point_property_ c) = Vector3.y new_position)
    by lra.
  assert (Hz : Vector3.z (focus_point_property_ c) = Vector3.z new_position)
    by lra.
  unfold Vector3.length, Vector3.sub in Hgt. cbn in Hgt.
  rewrite Hx, Hy, Hz in Hgt.
  replace ((Vector3.x new_position - Vector3.x new_position)
           * (Vector3.x new_position - Vector3.x new_position)
           + (Vector3.y new_position - Vector3.y new_position)
             * (Vector3.y new_position - Vector3.y new_position)
           + (Vector3.z new_position - Vector3.z new_position)
             * (Vector3.z new_position - Vector3.z new_position))
    with 0 in Hgt by ring.
  rewrite sqrt_0 in Hgt. lra.
Qed.

(** C7, on the code.  The tick does not look at the distance between the
    interpolated eye and focus: a movement whose eye and focus coincide is
    accepted, and the tick that completes it hands the zero vector to
    [setDirection]. *)
Theorem C7_zero_direction_reaches_camera :
  In (SetDirection Vector3.ZERO)
    (snd (update 1000000
            (beginNewTransition 0 (Vector3_exact 1 2 3) (Vector3_exact 1 2 3)
               Vector3.UNIT_Z 0 WAVE (initial 0)))).
Proof.
  assert (Hok : buffer_ok (A := exact_arithmetic) (initial 0))
    by (split; simpl; lia).
  assert (Hq : queue (A := exact_arithmetic) (initial 0) = []) by reflexivity.
  assert (Hrf : render_frame_by_frame_ (A := exact_arithmetic) (initial 0)
                = false) by reflexivity.
  assert (Hp : (pause_animation_duration_ (A := exact_arithmetic) (initial 0)
                <= 0)%Z)
    by (simpl; lia).
  assert (Hnow : (0 + stored_duration 0 <= 1000000)%Z)
    by (unfold stored_duration, Duration_0_001; simpl; lia).
  destruct (idle_enqueue_then_tick 0 1000000 (Vector3_exact 1 2 3)
              (Vector3_exact 1 2 3) Vector3.UNIT_Z 0 WAVE (initial 0)
              Hok Hq (Z.le_refl 0) Hrf Hp Hnow)
    as (_ & _ & _ & _ & _ & Hdir & _).
  rewrite Vector3_sub_diag in Hdir. exact Hdir.
Qed.

(** ** Ticks before the end of a segment *)

(** On the wall clock with no pause pending, ticks that all come before the
    end of the running segment leave the engine animating with the same
    queue and the same start time. *)
Lemma early_ticks (ticks : list WallTime) :
  forall (c : @Controller exact_arithmetic) start goal rest,
  animate_ c = true -> queue c = start :: goal :: rest ->
  render_frame_by_frame_ c = false ->
  (pause_animation_duration_ c <= 0)%Z ->
  (0 < transition_duration goal)%Z ->
  Forall (fun t => (t < transition_start_time_ c + transition_duration goal)%Z)
    ticks ->
  let c' := fst (run (map Tick ticks) c) in
  animate_ c' = true /\ queue c' = start :: goal :: rest /\
  render_frame_by_frame_ c' = false /\
  (pause_animation_duration_ c' <= 0)%Z /\
  transition_start_time_ c' = transition_start_time_ c.
Proof.
  induction ticks as [ | t ticks IH];
    intros c start goal rest Ea Eq Hrf Hp Hd Hall.
  - cbn. repeat split; assumption.
  - inversion Hall as [ | ? ? Ht Hrest]; subst.
    cbn [map]. cbv zeta. rewrite fst_run_cons. cbn [step].
    destruct (update_unfinished t c start goal rest Ea Eq)
      as (Ea1 & Hb1 & Hrf1 & _ & Hp1 & _ & Hst1 & _).
    { rewrite wall_clock_test by assumption. apply Z.leb_gt. lia. }
    specialize (Hst1 Hp).
    assert (Eq1 : queue (fst (update t c)) = start :: goal :: rest)
      by (unfold queue in *; rewrite Hb1; exact Eq).
    destruct (IH (fst (update t c)) start goal rest Ea1 Eq1)
      as (H1 & H2 & H3 & H4 & H5).
    + rewrite Hrf1. exact Hrf.
    + exact Hp1.
    + exact Hd.
    + rewrite Hst1. exact Hrest.
    + cbv zeta in H1, H2, H3, H4, H5.
      repeat split; try assumption. rewrite H5. exact Hst1.
Qed.

(** ** Requests of duration zero *)

(** With a frame rate of zero the divisor of the frame-by-frame fraction is
    zero whatever the stored duration. *)
Lemma progress_divisor_zero_frame_rate d (c : @Controller exact_arithmetic) :
  render_frame_by_frame_ c = true -> target_fps_ c = 0%Z ->
  progress_divisor d c = 0.
Proof.
  intros Hrf Hfps. unfold progress_divisor. rewrite Hrf, Hfps. cbn. lra.
Qed.

(** C6 as stated fails on the wall clock.  First, a movement of duration
    zero is enqueued at time 0 on the idle initial state, and after ticks at
    0.1 ms and 0.2 ms it has not completed: the engine is still animating
    towards it.  Second, it is enqueued at time 10 ms behind a
    movement of one second that started at time 0, and after ticks at 33 ms
    and 66 ms it is still waiting at the tail of the queue. *)
Lemma C6_counterexample :
  (animate_
     (fst (run [Tick 100000; Tick 200000]
             (beginNewTransition 0 (Vector3_exact 0 0 10) Vector3.ZERO
                Vector3.UNIT_Z 0 FULL (initial 0)))) = true /\
   queue
     (fst (run [Tick 100000; Tick 200000]
             (beginNewTransition 0 (Vector3_exact 0 0 10) Vector3.ZERO
                Vector3.UNIT_Z 0 FULL (initial 0)))) =
   [ mkMovement (Vector3_exact 5 5 10) Vector3.ZERO Vector3.UNIT_Z
       Duration_0_001 FULL;
     mkMovement (Vector3_exact 0 0 10) Vector3.ZERO Vector3.UNIT_Z
       Duration_0_001 FULL ]) /\
  (animate_
     (fst (run [Tick 33000000; Tick 66000000]
             (beginNewTransition 10000000 (Vector3_exact 0 0 10) Vector3.ZERO
                Vector3.UNIT_Z 0 FULL animating_controller))) = true /\
   queue
     (fst (run [Tick 33000000; Tick 66000000]
             (beginNewTransition 10000000 (Vector3_exact 0 0 10) Vector3.ZERO
                Vector3.UNIT_Z 0 FULL animating_controller))) =
   queue animating_controller ++
   [ mkMovement (Vector3_exact 0 0 10) Vector3.ZERO Vector3.UNIT_Z
       Duration_0_001 FULL ]).
Proof.
  split.
  - set (c := beginNewTransition 0 (Vector3_exact 0 0 10) Vector3.ZERO
                Vector3.UNIT_Z 0 FULL (initial 0)).
    assert (Hc : animate_ c = true /\
                 queue c =
                   [ mkMovement (Vector3_exact 5 5 10) Vector3.ZERO
                       Vector3.UNIT_Z Duration_0_001 FULL;
                     mkMovement (Vector3_exact 0 0 10) Vector3.ZERO
                       Vector3.UNIT_Z Duration_0_001 FULL ] /\
                 render_frame_by_frame_ c = false /\
                 pause_animation_duration_ c = 0%Z /\
                 transition_start_time_ c = 0%Z).
    { unfold c. rewrite beginNewTransition_accepted
        by (try lia; split; simpl; lia).
      repeat split. }
    clearbody c. destruct Hc as (Ea & Eq & Hrf & Hp & Hst).
    destruct (early_ticks [100000; 200000]%Z c _ _ [] Ea Eq Hrf)
      as (H1 & H2 & _).
    + lia.
    + cbn [transition_duration]. unfold Duration_0_001. lia.
    + rewrite Hst. cbn [transition_duration]. unfold Duration_0_001.
      repeat constructor.
    + split; assumption.
  - destruct animating_controller_state as (Hr & Ea0 & Eq0 & Hrf0 & Hp0 & Hst0).
    pose proof (invariant_buffer_ok _ (reachable_invariant _ Hr)) as Hok.
    rewrite Eq0.
    set (c := beginNewTransition 10000000 (Vector3_exact 0 0 10) Vector3.ZERO
                Vector3.UNIT_Z 0 FULL animating_controller).
    assert (Hc : animate_ c = true /\
                 queue c =
                   [ mkMovement (Vector3_exact 5 5 10) Vector3.ZERO
                       Vector3.UNIT_Z Duration_0_001 FULL;
                     mkMovement (Vector3_exact 0 0 10) Vector3.ZERO
                       Vector3.UNIT_Z 1000000000 FULL ] ++
                   [ mkMovement (Vector3_exact 0 0 10) Vector3.ZERO
                       Vector3.UNIT_Z Duration_0_001 FULL ] /\
                 render_frame_by_frame_ c = false /\
                 pause_animation_duration_ c = 0%Z /\
                 transition_start_time_ c = 0%Z).
    { unfold c. rewrite beginNewTransition_accepted by (try lia; exact Hok).
      unfold queue_before_push, queue at 2.
      cbn [animate_ cam_movements_buffer_ CircularBuffer.items
           render_frame_by_frame_ pause_animation_duration_
           transition_start_time_].
      rewrite Eq0, Hrf0, Hp0, Hst0. repeat split. }
    clearbody c. destruct Hc as (Ea & Eq & Hrf & Hp & Hst).
    cbn [app] in Eq |- *.
    destruct (early_ticks [33000000; 66000000]%Z c _ _ _ Ea Eq Hrf)
      as (H1 & H2 & _).
    + lia.
    + cbn [transition_duration]. lia.
    + rewrite Hst. cbn [transition_duration]. repeat constructor.
    + split; assumption.
Qed.

Lemma one_over_ge_1 (x : R) : 0 < x -> x <= 1 -> 1 / x >= 1.
Proof.
  intros Hpos Hle. apply Rle_ge.
  apply (Rmult_le_reg_r x); [exact Hpos | ].
  unfold Rdiv. rewrite Rmult_assoc, Rinv_l; lra.
Qed.

(** A movement of 0.001 s enqueued on an idle engine on the wall clock at
    time [now]: ticks before [now] + 1 ms leave it running, and the first
    tick at or after [now] + 1 ms completes it. *)
Lemma zero_duration_on_wall_clock now e f u s
    (c : @Controller exact_arithmetic) (early : list WallTime)
    (now' : WallTime) :
  buffer_ok c -> queue c = [] -> render_frame_by_frame_ c = false ->
  (pause_animation_duration_ c <= 0)%Z ->
  Forall (fun t => (t < now + 1000000)%Z) early ->
  (now + 1000000 <= now')%Z ->
  let c' := beginNewTransition now e f u 0 s c in
  (animate_ (fst (run (map Tick early) c')) = true /\
   queue (fst (run (map Tick early) c')) =
     [current_pose_movement s c; mkMovement e f u Duration_0_001 s]) /\
  (animate_ (fst (run (map Tick (early ++ [now'])) c')) = false /\
   queue (fst (run (map Tick (early ++ [now'])) c')) = []).
Proof.
  intros Hok Hq Hrf Hp Hearly Hnow c'.
  destruct (beginNewTransition_from_idle now e f u 0 s c Hok Hq (Z.le_refl 0))
    as (Ea & Eq & Hrf' & _ & _ & Hp' & Hst').
  fold c' in Ea, Eq, Hrf', Hp', Hst'. clearbody c'.
  change (stored_duration 0) with Duration_0_001 in Eq.
  destruct (early_ticks early c' _ _ [] Ea Eq) as (Ea1 & Eq1 & Hrf1 & Hp1 & Hst1).
  - rewrite Hrf'. exact Hrf.
  - rewrite Hp'. exact Hp.
  - cbn [transition_duration]. unfold Duration_0_001. lia.
  - rewrite Hst'. cbn [transition_duration]. unfold Duration_0_001.
    exact Hearly.
  - cbv zeta in Ea1, Eq1, Hrf1, Hp1, Hst1.
    split; [split; assumption | ].
    rewrite map_app, fst_run_app. cbn [map]. rewrite fst_run_cons.
    cbn [step run fst].
    set (c1 := fst (run (map Tick early) c')) in *. clearbody c1.
    destruct (update_finished_last now' c1 _ _ Ea1 Eq1) as (Han & Hq2 & _).
    + rewrite wall_clock_test
        by (try exact Hrf1; cbn [transition_duration];
            unfold Duration_0_001; lia).
      apply Z.leb_le. cbn [transition_duration]. unfold Duration_0_001.
      rewrite Hst1, Hst'. lia.
    + split; assumption.
Qed.

(** C6, amended.  A request of duration zero is stored with a duration of
    0.001 s, so the duration by which the time fraction divides is positive:
    the divisor is non-zero on the wall clock, and frame by frame when the
    target frame rate is non-zero.  Enqueued on an idle engine on the wall
    clock with no pause pending, the movement is still running after any
    number of ticks that come earlier than 1 ms after the enqueue, and it
    completes at the first tick whose clock reading is at least 1 ms after
    the enqueue, which leaves the engine idle with an empty queue; so it has
    completed after the two ticks that follow the enqueue whenever the
    second comes at least 1 ms after the first.  Enqueued on an idle engine in frame-by-frame mode with
    a frame rate between 1 and 1000, it completes at the second tick. *)
Theorem C6_zero_duration_request now e f u s
    (c : @Controller exact_arithmetic) :
  buffer_ok c ->
  let c' := beginNewTransition now e f u 0 s c in
  (exists front, queue c' = front ++ [mkMovement e f u Duration_0_001 s]) /\
  toSec Duration_0_001 = 1 / 1000 /\
  (render_frame_by_frame_ c = false \/ target_fps_ c <> 0%Z ->
   progress_divisor Duration_0_001 c' <> 0 /\
   forall now',
     fst (computeRelativeProgressInTime now' Duration_0_001 c') =
     (if render_frame_by_frame_ c' then IZR (rendered_frames_counter_ c')
      else toSec (now' - transition_start_time_ c'))
     / progress_divisor Duration_0_001 c') /\
  (queue c = [] -> render_frame_by_frame_ c = false ->
   (pause_animation_duration_ c <= 0)%Z ->
   (forall (early : list WallTime) (now' : WallTime),
      Forall (fun t => (t < now + 1000000)%Z) early ->
      (now + 1000000 <= now')%Z ->
      (animate_ (fst (run (map Tick early) c')) = true /\
       queue (fst (run (map Tick early) c')) =
         [ mkMovement (eye_point_property_ c) (focus_point_property_ c)
             (up_vector_property_ c) Duration_0_001 s;
           mkMovement e f u Duration_0_001 s ]) /\
      (animate_ (fst (run (map Tick (early ++ [now'])) c')) = false /\
       queue (fst (run (map Tick (early ++ [now'])) c')) = [])) /\
   (forall t1 t2 : WallTime,
      (now <= t1)%Z -> (t1 + 1000000 <= t2)%Z ->
      animate_ (fst (run [Tick t1; Tick t2] c')) = false /\
      queue (fst (run [Tick t1; Tick t2] c')) = [])) /\
  (queue c = [] -> render_frame_by_frame_ c = true ->
   rendered_frames_counter_ c = 0%Z -> (0 < target_fps_ c <= 1000)%Z ->
   forall n1 n2,
     animate_ (fst (update n1 c')) = true /\
     animate_ (fst (update n2 (fst (update n1 c')))) = false /\
     queue (fst (update n2 (fst (update n1 c')))) = []).
Proof.
  intros Hok c'.
  assert (Hstored : stored_duration 0 = Duration_0_001) by reflexivity.
  split; [ | split; [apply toSec_0_001 | split; [ | split]]].
  - exists (queue_before_push s c). unfold c'.
    rewrite queue_beginNewTransition_accepted by (try lia; exact Hok).
    reflexivity.
  - intros Hmode. split; [ | intro now'; apply computeRelativeProgressInTime_divisor].
    assert (Hrf : render_frame_by_frame_ c' = render_frame_by_frame_ c /\
                  target_fps_ c' = target_fps_ c).
    { unfold c'. rewrite beginNewTransition_accepted by (try lia; exact Hok).
      split; reflexivity. }
    destruct Hrf as [Hrf Hfps].
    unfold progress_divisor. rewrite Hrf, Hfps.
    cbn [toSec_double double_mul double_of_int exact_arithmetic].
    rewrite toSec_0_001.
    destruct (render_frame_by_frame_ c).
    + destruct Hmode as [Hm | Hm]; [discriminate | ].
      apply (not_0_IZR (target_fps_ c)) in Hm. intro H.
      apply Rmult_integral in H. destruct H; lra.
    + lra.
  - intros Hq Hrf Hp. split.
    + intros early now' Hearly Hnow.
      exact (zero_duration_on_wall_clock now e f u s c early now'
               Hok Hq Hrf Hp Hearly Hnow).
    + intros t1 t2 Ht1 Ht.
      destruct (Z.lt_ge_cases t1 (now + 1000000)) as [Hlt | Hge].
      * assert (Hearly : Forall (fun t => (t < now + 1000000)%Z) [t1])
          by (constructor; [exact Hlt | constructor]).
        assert (Hnow : (now + 1000000 <= t2)%Z) by lia.
        exact (proj2 (zero_duration_on_wall_clock now e f u s c [t1] t2
                        Hok Hq Hrf Hp Hearly Hnow)).
      * assert (Hnow : (now + 1000000 <= t1)%Z) by lia.
        destruct (proj2 (zero_duration_on_wall_clock now e f u s c [] t1
                           Hok Hq Hrf Hp (Forall_nil _) Hnow)) as (Han & Hq1).
        fold c' in Han, Hq1. cbn [app map] in Han, Hq1.
        rewrite fst_run_cons in Han, Hq1. cbn [step run fst] in Han, Hq1.
        rewrite !fst_run_cons. cbn [step run fst].
        rewrite update_idle by exact Han. cbn [fst]. split; assumption.
  - intros Hq Hrf Hcnt Hfps n1 n2.
    destruct (beginNewTransition_from_idle now e f u 0 s c Hok Hq
                (Z.le_refl 0))
      as (Ea & Eq & Hrf' & Hfps' & Hcnt' & _).
    fold c' in Ea, Eq, Hrf', Hfps', Hcnt'.
    rewrite Hstored in Eq.
    set (start := current_pose_movement s c) in *.
    set (goal := mkMovement e f u Duration_0_001 s) in *.
    clearbody c'.
    destruct (pauseAnimationOnRequest_keeps c')
      as (_ & _ & Hr1 & Hf1 & Hc1 & _).
    cbv zeta in Hr1, Hf1, Hc1.
    destruct (update_unfinished n1 c' start goal [] Ea Eq)
      as (Ea1 & Hb1 & Hrf1 & Hfps1 & Hp1 & Hcnt1 & _).
    { apply double_ge_exact_false.
      rewrite computeRelativeProgressInTime_divisor.
      rewrite Hr1, Hc1, Hrf', Hrf, Hcnt', Hcnt.
      unfold Rdiv. rewrite Rmult_0_l. lra. }
    set (c1 := fst (update n1 c')) in *. clearbody c1.
    assert (Eq1 : queue c1 = [start; goal])
      by (unfold queue in *; rewrite Hb1; exact Eq).
    split; [exact Ea1 | ].
    destruct (update_finished_last n2 c1 start goal Ea1 Eq1) as (Han & Hq2 & _).
    { apply double_ge_exact_true.
      rewrite pauseAnimationOnRequest_idle_pause by exact Hp1. cbn [fst].
      rewrite computeRelativeProgressInTime_divisor.
      unfold progress_divisor.
      rewrite Hrf1, Hfps1, Hcnt1, Hrf', Hfps', Hcnt', Hrf, Hcnt.
      cbn [goal transition_duration Z.add toSec_double double_mul
           double_of_int exact_arithmetic].
      rewrite toSec_0_001.
      assert (H0 : 0 < IZR (target_fps_ c)) by (apply IZR_lt; lia).
      assert (H1 : IZR (target_fps_ c) <= 1000) by (apply IZR_le; lia).
      apply one_over_ge_1; lra. }
    split; assumption.
Qed.

Lemma C6_zero_duration_request_witness :
  animate_
    (fst (run (map Tick [100000; 200000; 999999]%Z)
            (beginNewTransition 0 (Vector3_exact 0 0 10) Vector3.ZERO
               Vector3.UNIT_Z 0 FULL (initial 0)))) = true /\
  animate_
    (fst (run (map Tick ([100000; 200000; 999999] ++ [1000000])%Z)
            (beginNewTransition 0 (Vector3_exact 0 0 10) Vector3.ZERO
               Vector3.UNIT_Z 0 FULL (initial 0)))) = false.
Proof.
  assert (Hok : buffer_ok (A := exact_arithmetic) (initial 0))
    by (split; simpl; lia).
  assert (Hq : queue (A := exact_arithmetic) (initial 0) = []) by reflexivity.
  assert (Hrf : render_frame_by_frame_ (A := exact_arithmetic) (initial 0)
                = false) by reflexivity.
  assert (Hp : (pause_animation_duration_ (A := exact_arithmetic) (initial 0)
                <= 0)%Z) by (simpl; lia).
  assert (Hearly : Forall (fun t => (t < 0 + 1000000)%Z)
                     [100000; 200000; 999999]%Z)
    by (repeat constructor).
  assert (Hnow : (0 + 1000000 <= 1000000)%Z) by lia.
  pose proof (proj1 (proj1 (proj2 (proj2 (proj2
                (C6_zero_duration_request 0 (Vector3_exact 0 0 10)
                   Vector3.ZERO Vector3.UNIT_Z FULL (initial 0) Hok))))
                Hq Hrf Hp) [100000; 200000; 999999]%Z 1000000%Z Hearly Hnow)
    as ((Ha & _) & (Hb & _)).
  split; [exact Ha | exact Hb].
Defined.

(** * Further properties of the code *)

(** ** The interpolation curves *)

Lemma half_turn_bounds (t : R) :
  0 <= t <= 1 -> 0 <= t * (PI / 2) <= PI / 2.
Proof. intro H. pose proof PI_RGT_0. split; nra. Qed.

(** On time fractions between 0 and 1 every curve is non-decreasing: a later
    tick of a segment never places the camera behind an earlier one. *)
Theorem space_fraction_monotone (t1 t2 : R) (s : InterpolationSpeed) :
  0 <= t1 -> t1 <= t2 -> t2 <= 1 ->
  computeRelativeProgressInSpace (A := exact_arithmetic) t1 s
  <= computeRelativeProgressInSpace (A := exact_arithmetic) t2 s.
Proof.
  intros H0 H12 H1. pose proof PI_RGT_0 as Hpi.
  assert (Ha : 0 <= t1 * (PI / 2) <= PI / 2) by (apply half_turn_bounds; lra).
  assert (Hb : 0 <= t2 * (PI / 2) <= PI / 2) by (apply half_turn_bounds; lra).
  assert (Hab : t1 * (PI / 2) <= t2 * (PI / 2)) by nra.
  destruct s; cbn.
  - assert (cos (t2 * (PI / 2)) <= cos (t1 * (PI / 2)))
      by (apply cos_decr_1; lra).
    lra.
  - assert (cos (t2 * (PI / 2) + PI / 2) <= cos (t1 * (PI / 2) + PI / 2))
      by (apply cos_decr_1; lra).
    lra.
  - exact H12.
  - assert (cos (t2 * PI) <= cos (t1 * PI)) by (apply cos_decr_1; nra). lra.
  - assert (cos (t2 * PI) <= cos (t1 * PI)) by (apply cos_decr_1; nra). lra.
Qed.

Lemma space_fraction_monotone_witness :
  computeRelativeProgressInSpace (A := exact_arithmetic) (1 / 4) WAVE
  <= computeRelativeProgressInSpace (A := exact_arithmetic) (3 / 4) WAVE.
Proof.
  assert (H0 : 0 <= 1 / 4) by lra.
  assert (H12 : 1 / 4 <= 3 / 4) by lra.
  assert (H1 : 3 / 4 <= 1) by lra.
  exact (space_fraction_monotone (1 / 4) (3 / 4) WAVE H0 H12 H1).
Defined.

(** ** When a tick completes a segment *)



(** ** Draining the queue *)



(** ** Ticks at concrete states *)

Lemma frame_by_frame_tick_ignores_clock_witness :
  update 0 (set_render_frame_by_frame true full_controller) =
  update 987654321 (set_render_frame_by_frame true full_controller).
Proof.
  assert (Hrf : render_frame_by_frame_
                  (set_render_frame_by_frame true full_controller) = true)
    by reflexivity.
  exact (frame_by_frame_tick_ignores_clock 0 987654321
           (set_render_frame_by_frame true full_controller) Hrf).
Defined.


Lemma pause_preserves_time_fraction_witness :
  fst (computeRelativeProgressInTime (250000000 + 5000000000) 1000000000
         (fst (pauseAnimationOnRequest
                 (pauseAnimationCallback 5000000000 full_controller)))) =
  fst (computeRelativeProgressInTime 250000000 1000000000
         (pauseAnimationCallback 5000000000 full_controller)).
Proof.
  assert (Hrf : render_frame_by_frame_
                  (pauseAnimationCallback 5000000000 full_controller) = false)
    by reflexivity.
  assert (Hp : (0 < pause_animation_duration_
                      (pauseAnimationCallback 5000000000 full_controller))%Z)
    by (cbn [pauseAnimationCallback set_pause_animation_duration
             pause_animation_duration_]; lia).
  exact (proj1 (pause_preserves_time_fraction 250000000 1000000000
                  (pauseAnimationCallback 5000000000 full_controller) Hrf Hp)).
Defined.

Lemma reachable_state_invariant_witness :
  (100 <= CircularBuffer.capacity
            (cam_movements_buffer_
               (fst (step (A := exact_arithmetic) (PauseFor 2000000000)
                       (initial 0)))))%nat.
Proof.
  exact (proj1 (reachable_state_invariant _
                  (reachable_step (PauseFor 2000000000) (initial 0)
                     (reachable_initial 0)))).
Defined.

Lemma trajectory_on_idle_engine_witness :
  queue
    (cameraTrajectoryCallback 0
       (mkTrajectory
          [ mkMovement Vector3.ZERO Vector3.UNIT_Z Vector3.UNIT_Z (-5) FULL;
            mkMovement Vector3.UNIT_Z Vector3.ZERO Vector3.UNIT_Z 0 RISING ]
          0 30)
       (initial 0)) =
  [ mkMovement (Vector3_exact 5 5 10) Vector3.ZERO Vector3.UNIT_Z
      Duration_0_001 RISING;
    mkMovement Vector3.UNIT_Z Vector3.ZERO Vector3.UNIT_Z
      Duration_0_001 RISING ].
Proof.
  assert (Hq : queue (A := exact_arithmetic) (initial 0) = []) by reflexivity.
  exact (proj1 (trajectory_on_idle_engine 0
                  (mkTrajectory
                     [ mkMovement Vector3.ZERO Vector3.UNIT_Z Vector3.UNIT_Z
                         (-5) FULL;
                       mkMovement Vector3.UNIT_Z Vector3.ZERO Vector3.UNIT_Z
                         0 RISING ]
                     0 30)
                  (initial 0) (reachable_initial 0) Hq)).
Defined.

(** ** Transitions started by the view helpers *)

(** [orbitCameraTo] asks for the point as the eye and for the current focus
    and up vector, and [lookAt] with the mouse enabled asks for the point,
    expressed in the attached frame, as the focus and for the current eye
    and up vector.  Started on an idle engine on the wall clock with no
    pause pending and a non-negative default transition time, and completed
    by a tick once that time has passed, the transition of [orbitCameraTo]
    leaves the focus and the up vector where they were and that of [lookAt]
    the eye and the up vector.  With the mouse disabled [lookAt] does
    nothing. *)
Theorem orbit_and_lookAt now now' dt ds fixedFrameToAttachedLocal point
    (c : @Controller exact_arithmetic) :
  buffer_ok c -> queue c = [] -> (0 <= dt)%Z ->
  render_frame_by_frame_ c = false ->
  (pause_animation_duration_ c <= 0)%Z ->
  (now + stored_duration dt <= now')%Z ->
  (queue (orbitCameraTo now dt ds point c) =
     [ current_pose_movement ds c;
       mkMovement point (focus_point_property_ c) (up_vector_property_ c)
         (stored_duration dt) ds ] /\
   let c' := fst (update now' (orbitCameraTo now dt ds point c)) in
   animate_ c' = false /\
   focus_point_property_ c' = focus_point_property_ c /\
   up_vector_property_ c' = up_vector_property_ c) /\
  (queue (lookAt now dt ds true fixedFrameToAttachedLocal point c) =
     [ current_pose_movement ds c;
       mkMovement (eye_point_property_ c) (fixedFrameToAttachedLocal point)
         (up_vector_property_ c) (stored_duration dt) ds ] /\
   let c' :=
     fst (update now'
            (lookAt now dt ds true fixedFrameToAttachedLocal point c)) in
   animate_ c' = false /\
   eye_point_property_ c' = eye_point_property_ c /\
   up_vector_property_ c' = up_vector_property_ c) /\
  lookAt now dt ds false fixedFrameToAttachedLocal point c = c.
Proof.
  intros Hok Hq Hd Hrf Hp Hnow. split; [ | split; [ | reflexivity]].
  - unfold orbitCameraTo. split.
    + apply (beginNewTransition_from_idle now point (focus_point_property_ c)
               (up_vector_property_ c) dt ds c Hok Hq Hd).
    + destruct (idle_enqueue_then_tick now now' point (focus_point_property_ c)
                  (up_vector_property_ c) dt ds c Hok Hq Hd Hrf Hp Hnow)
        as (_ & Han & _ & Hf & Hu & _).
      repeat split; assumption.
  - unfold lookAt. cbn [negb]. split.
    + apply (beginNewTransition_from_idle now (eye_point_property_ c)
               (fixedFrameToAttachedLocal point) (up_vector_property_ c)
               dt ds c Hok Hq Hd).
    + destruct (idle_enqueue_then_tick now now' (eye_point_property_ c)
                  (fixedFrameToAttachedLocal point) (up_vector_property_ c)
                  dt ds c Hok Hq Hd Hrf Hp Hnow)
        as (_ & Han & He & _ & Hu & _).
      repeat split; assumption.
Qed.

Lemma orbit_and_lookAt_witness :
  focus_point_property_
    (fst (update 500000000
            (orbitCameraTo 0 500000000 WAVE (Vector3_exact 1 1 1)
               (initial 0))))
  = Vector3.ZERO.
Proof.
  assert (Hok : buffer_ok (A := exact_arithmetic) (initial 0))
    by (split; simpl; lia).
  assert (Hq : queue (A := exact_arithmetic) (initial 0) = []) by reflexivity.
  assert (Hd : (0 <= 500000000)%Z) by lia.
  assert (Hrf : render_frame_by_frame_ (A := exact_arithmetic) (initial 0)
                = false) by reflexivity.
  assert (Hp : (pause_animation_duration_ (A := exact_arithmetic) (initial 0)
                <= 0)%Z) by (simpl; lia).
  assert (Hnow : (0 + stored_duration 500000000 <= 500000000)%Z)
    by (unfold stored_duration; simpl; lia).
  exact (proj1 (proj2 (proj2 (proj1
           (orbit_and_lookAt 0 500000000 500000000 WAVE (fun v => v)
              (Vector3_exact 1 1 1) (initial 0) Hok Hq Hd Hrf Hp Hnow))))).
Defined.

(** [moveEyeWithFocusTo] asks for the point as the eye, for the current
    focus moved by the offset from the current eye to the point, and for the
    current up vector.  Started and completed under the same conditions, the
    transition leaves the up vector where it was. *)
Theorem moveEyeWithFocusTo_request now now' dt ds point
    (c : @Controller exact_arithmetic) :
  buffer_ok c -> queue c = [] -> (0 <= dt)%Z ->
  render_frame_by_frame_ c = false ->
  (pause_animation_duration_ c <= 0)%Z ->
  (now + stored_duration dt <= now')%Z ->
  queue (moveEyeWithFocusTo now dt ds point c) =
    [ current_pose_movement ds c;
      mkMovement point
        (Vector3.add (focus_point_property_ c)
           (Vector3.sub point (eye_point_property_ c)))
        (up_vector_property_ c) (stored_duration dt) ds ] /\
  let c' := fst (update now' (moveEyeWithFocusTo now dt ds point c)) in
  animate_ c' = false /\ queue c' = [] /\
  up_vector_property_ c' = up_vector_property_ c.
Proof.
  intros Hok Hq Hd Hrf Hp Hnow. unfold moveEyeWithFocusTo. split.
  - apply (beginNewTransition_from_idle now point
             (Vector3.add (focus_point_property_ c)
                (Vector3.sub point (eye_point_property_ c)))
             (up_vector_property_ c) dt ds c Hok Hq Hd).
  - destruct (idle_enqueue_then_tick now now' point
                (Vector3.add (focus_point_property_ c)
                   (Vector3.sub point (eye_point_property_ c)))
                (up_vector_property_ c) dt ds c Hok Hq Hd Hrf Hp Hnow)
      as (Hq' & Han & _ & _ & Hu & _).
    repeat split; assumption.
Qed.

Lemma moveEyeWithFocusTo_request_witness :
  up_vector_property_
    (fst (update 500000000
            (moveEyeWithFocusTo 0 500000000 WAVE (Vector3_exact 1 1 1)
               (initial 0)))) = Vector3.UNIT_Z.
Proof.
  assert (Hok : buffer_ok (A := exact_arithmetic) (initial 0))
    by (split; simpl; lia).
  assert (Hq : queue (A := exact_arithmetic) (initial 0) = []) by reflexivity.
  assert (Hd : (0 <= 500000000)%Z) by lia.
  assert (Hrf : render_frame_by_frame_ (A := exact_arithmetic) (initial 0)
                = false) by reflexivity.
  assert (Hp : (pause_animation_duration_ (A := exact_arithmetic) (initial 0)
                <= 0)%Z) by (simpl; lia).
  assert (Hnow : (0 + stored_duration 500000000 <= 500000000)%Z)
    by (unfold stored_duration; simpl; lia).
  exact (proj2 (proj2 (proj2
           (moveEyeWithFocusTo_request 0 500000000 500000000 WAVE
              (Vector3_exact 1 1 1) (initial 0) Hok Hq Hd Hrf Hp Hnow)))).
Defined.

Lemma transitionFrom_previous_view_witness :
  animate_ (transitionFrom 0 500000000 WAVE (Some full_controller) (initial 0))
  = true.
Proof.
  assert (Hok : buffer_ok (A := exact_arithmetic) (initial 0))
    by (split; simpl; lia).
  assert (Hq : queue (A := exact_arithmetic) (initial 0) = []) by reflexivity.
  assert (Hd : (0 <= 500000000)%Z) by lia.
  exact (proj1 (proj2 (transitionFrom_previous_view 0 500000000 WAVE
                         full_controller (initial 0) Hok Hq Hd))).
Defined.

Lemma tick_overwrites_written_pose_witness :
  update 250000000
    (set_pose (Vector3_exact 9 9 9) Vector3.ZERO Vector3.UNIT_Z full_controller)
  = update 250000000 full_controller.
Proof.
  assert (Ea : animate_ full_controller = true) by reflexivity.
  assert (Hlen : (2 <= length (queue full_controller))%nat) by (simpl; lia).
  exact (tick_overwrites_written_pose 250000000 (Vector3_exact 9 9 9)
           Vector3.ZERO Vector3.UNIT_Z full_controller Ea Hlen).
Defined.

(** * The engine in IEEE arithmetic *)



(** The zero direction is reached in IEEE arithmetic as well: from the
    constructor state a movement of duration zero whose eye and focus are
    both (1, 2, 3), in the style FULL, is completed by the tick at 1 ms,
    which writes eye and focus to the same [float]s and hands their
    difference, the zero vector, to [setDirection]. *)
Lemma zero_direction_in_ieee :
  In (SetDirection (A := ieee_arithmetic no_cos) Vector3.ZERO)
    (snd (update 1000000
            (beginNewTransition 0
               (Vector3.mk (real_of_int 1) (real_of_int 2) (real_of_int 3))
               (Vector3.mk (real_of_int 1) (real_of_int 2) (real_of_int 3))
               Vector3.UNIT_Z 0 FULL (initial 0)))).
Proof.
  set (p := @Vector3.mk (ieee_arithmetic no_cos) (real_of_int 1)
              (real_of_int 2) (real_of_int 3)).
  assert (Hok : buffer_ok (A := ieee_arithmetic no_cos) (initial 0))
    by (split; simpl; lia).
  destruct (beginNewTransition_from_idle 0 p p Vector3.UNIT_Z 0 FULL
              (initial 0) Hok eq_refl (Z.le_refl 0))
    as (Ea & Eq & Hrf & _ & _ & Hp & Hst).
  set (c' := beginNewTransition 0 p p Vector3.UNIT_Z 0 FULL (initial 0)) in *.
  clearbody c'.
  assert (Hfin : double_ge
                   (fst (computeRelativeProgressInTime 1000000
                           (transition_duration
                              (mkMovement p p Vector3.UNIT_Z
                                 (stored_duration 0) FULL))
                           (fst (pauseAnimationOnRequest c'))))
                   (double_of_int 1) = true).
  { rewrite pauseAnimationOnRequest_idle_pause by (rewrite Hp; cbn; lia).
    cbn [fst]. unfold computeRelativeProgressInTime. rewrite Hrf, Hst.
    cbn [fst render_frame_by_frame_ initial]. vm_compute. reflexivity. }
  destruct (update_finished 1000000 c' _ _ [] Ea Eq Hfin) as (_ & Hdir & _).
  cbv zeta in Hdir.
  match type of Hdir with
  | In (SetDirection ?v) _ =>
      assert (Hv : v = Vector3.ZERO)
        by (apply Vector3_eq_intro; vm_compute; reflexivity)
  end.
  rewrite Hv in Hdir. exact Hdir.
Qed.

(** ** The frame-by-frame fraction in IEEE arithmetic *)

(** A frame rate of zero, which the trajectory callback stores unchecked,
    makes the frame-by-frame divisor zero whatever the duration stored for a
    request of duration zero: the first tick of the segment divides 0 by 0
    and gets a NaN, which fails the test [>= 1.0], and the next divides 1 by
    0 and gets the infinity, which passes it. *)
Theorem frame_rate_zero_divides_by_zero (libm_cos : spec_float -> spec_float)
    (now : WallTime) (c : @Controller (ieee_arithmetic libm_cos)) :
  render_frame_by_frame_ c = true -> target_fps_ c = 0%Z ->
  progress_divisor Duration_0_001 c = S754_zero false /\
  (rendered_frames_counter_ c = 0%Z ->
   fst (computeRelativeProgressInTime now Duration_0_001 c) = S754_nan /\
   double_ge (fst (computeRelativeProgressInTime now Duration_0_001 c))
     (double_of_int 1) = false) /\
  (rendered_frames_counter_ c = 1%Z ->
   fst (computeRelativeProgressInTime now Duration_0_001 c) =
     S754_infinity false /\
   double_ge (fst (computeRelativeProgressInTime now Duration_0_001 c))
     (double_of_int 1) = true).
Proof.
  intros Hrf Hfps.
  unfold progress_divisor, computeRelativeProgressInTime.
  rewrite Hrf, Hfps. cbn [fst].
  split; [vm_compute; reflexivity | ].
  split; intros ->; split; vm_compute; reflexivity.
Qed.

Lemma frame_rate_zero_divides_by_zero_witness :
  fst (computeRelativeProgressInTime 0 Duration_0_001
         (set_target_fps 0 (set_render_frame_by_frame true rounding_controller)))
  = S754_nan.
Proof.
  assert (Hrf : render_frame_by_frame_
                  (set_target_fps 0
                     (set_render_frame_by_frame true rounding_controller))
                = true) by reflexivity.
  assert (Hfps : target_fps_
                   (set_target_fps 0
                      (set_render_frame_by_frame true rounding_controller))
                 = 0%Z) by reflexivity.
  assert (Hcnt : rendered_frames_counter_
                   (set_target_fps 0
                      (set_render_frame_by_frame true rounding_controller))
                 = 0%Z).
  { cbn [set_target_fps set_render_frame_by_frame rendered_frames_counter_].
    unfold rounding_controller.
    rewrite beginNewTransition_accepted by (try lia; split; simpl; lia).
    reflexivity. }
  exact (proj1 (proj1 (proj2 (frame_rate_zero_divides_by_zero no_cos 0%Z _
                                Hrf Hfps)) Hcnt)).
Defined.

(** The seconds of a duration are rounded, and so is the product with the
    frame rate: at 60 frames per second a movement of 0.3 s is not over when
    18 frames have been counted, as it would be in exact arithmetic, since
    18 / (60 * 0.30000000000000004) is 0.9999999999999998; it is over at the
    next tick. *)
Theorem frame_fraction_is_rounded (libm_cos : spec_float -> spec_float)
    (now : WallTime) (c : @Controller (ieee_arithmetic libm_cos)) :
  render_frame_by_frame_ c = true -> target_fps_ c = 60%Z ->
  (rendered_frames_counter_ c = 18%Z ->
   fst (computeRelativeProgressInTime now 300000000 c) =
     S754_finite false 9007199254740990 (-53) /\
   double_ge (fst (computeRelativeProgressInTime now 300000000 c))
     (double_of_int 1) = false) /\
  (rendered_frames_counter_ c = 19%Z ->
   double_ge (fst (computeRelativeProgressInTime now 300000000 c))
     (double_of_int 1) = true).
Proof.
  intros Hrf Hfps.
  unfold computeRelativeProgressInTime.
  rewrite Hrf, Hfps. cbn [fst].
  split; intros ->; [split | ]; vm_compute; reflexivity.
Qed.

Lemma frame_fraction_is_rounded_witness :
  double_ge
    (fst (computeRelativeProgressInTime 0 300000000
            (set_rendered_frames_counter 18
               (set_target_fps 60
                  (set_render_frame_by_frame true rounding_controller)))))
    (double_of_int 1) = false.
Proof.
  assert (Hrf : render_frame_by_frame_
                  (set_rendered_frames_counter 18
                     (set_target_fps 60
                        (set_render_frame_by_frame true rounding_controller)))
                = true) by reflexivity.
  assert (Hfps : target_fps_
                   (set_rendered_frames_counter 18
                      (set_target_fps 60
                         (set_render_frame_by_frame true rounding_controller)))
                 = 60%Z) by reflexivity.
  assert (Hcnt : rendered_frames_counter_
                   (set_rendered_frames_counter 18
                      (set_target_fps 60
                         (set_render_frame_by_frame true rounding_controller)))
                 = 18%Z) by reflexivity.
  exact (proj2 (proj1 (frame_fraction_is_rounded no_cos 0%Z _ Hrf Hfps) Hcnt)).
Defined.

(** In exact arithmetic the same movement is over when 18 frames have been
    counted. *)
Lemma frame_fraction_exact (now : WallTime)
    (c : @Controller exact_arithmetic) :
  render_frame_by_frame_ c = true -> target_fps_ c = 60%Z ->
  rendered_frames_counter_ c = 18%Z ->
  double_ge (fst (computeRelativeProgressInTime now 300000000 c))
    (double_of_int 1) = true.
Proof.
  intros Hrf Hfps Hcnt. apply double_ge_exact_true.
  unfold computeRelativeProgressInTime. rewrite Hrf, Hfps, Hcnt. cbn.
  unfold toSec. lra.
Qed.

(** The frame rates from 1 to 1000, one by one: with the duration of 0.001 s
    stored for a request of duration zero, the fraction computed from a
    frame counter of 0 fails the test [>= 1.0] and the fraction computed
    from a frame counter of 1 passes it. *)
Lemma zero_duration_frame_rates :
  forallb
    (fun fps =>
       negb
         (IEEE.ge
            (IEEE.double_div (IEEE.double_of_int 0)
               (IEEE.double_mul (IEEE.double_of_int fps)
                  (IEEE.toSec Duration_0_001)))
            (IEEE.double_of_int 1))
       && IEEE.ge
            (IEEE.double_div (IEEE.double_of_int 1)
               (IEEE.double_mul (IEEE.double_of_int fps)
                  (IEEE.toSec Duration_0_001)))
            (IEEE.double_of_int 1))
    (map Z.of_nat (seq 1 1000)) = true.
Proof. vm_compute. reflexivity. Qed.

(** In IEEE arithmetic, as in exact arithmetic, a movement stored with the
    duration of 0.001 s and run frame by frame at a frame rate between 1 and
    1000 is not over when no frame has been counted and is over when one
    frame has been counted: the rounding of the seconds and of the product
    with the frame rate does not delay it. *)
Theorem zero_duration_frame_by_frame (libm_cos : spec_float -> spec_float)
    (now : WallTime) (c : @Controller (ieee_arithmetic libm_cos)) :
  render_frame_by_frame_ c = true -> (1 <= target_fps_ c <= 1000)%Z ->
  (rendered_frames_counter_ c = 0%Z ->
   double_ge (fst (computeRelativeProgressInTime now Duration_0_001 c))
     (double_of_int 1) = false) /\
  (rendered_frames_counter_ c = 1%Z ->
   double_ge (fst (computeRelativeProgressInTime now Duration_0_001 c))
     (double_of_int 1) = true).
Proof.
  intros Hrf Hfps.
  pose proof zero_duration_frame_rates as Hall.
  rewrite forallb_forall in Hall.
  specialize (Hall (target_fps_ c)).
  assert (Hin : In (target_fps_ c) (map Z.of_nat (seq 1 1000))).
  { rewrite <- (Z2Nat.id (target_fps_ c)) by lia.
    apply in_map, in_seq. lia. }
  apply Hall in Hin. apply andb_prop in Hin. destruct Hin as [H0 H1].
  apply negb_true_iff in H0.
  unfold computeRelativeProgressInTime. rewrite Hrf. cbn [fst].
  split; intros ->; assumption.
Qed.

Lemma zero_duration_frame_by_frame_witness :
  double_ge
    (fst (computeRelativeProgressInTime 0 Duration_0_001
            (set_rendered_frames_counter 1
               (set_render_frame_by_frame true rounding_controller))))
    (double_of_int 1) = true.
Proof.
  assert (Hrf : render_frame_by_frame_
                  (set_rendered_frames_counter 1
                     (set_render_frame_by_frame true rounding_controller))
                = true) by reflexivity.
  assert (Hfps : (1 <= target_fps_
                         (set_rendered_frames_counter 1
                            (set_render_frame_by_frame true
                               rounding_controller)) <= 1000)%Z).
  { cbn [set_rendered_frames_counter set_render_frame_by_frame target_fps_].
    unfold rounding_controller.
    rewrite beginNewTransition_accepted by (try lia; split; simpl; lia).
    cbn. lia. }
  assert (Hcnt : rendered_frames_counter_
                   (set_rendered_frames_counter 1
                      (set_render_frame_by_frame true rounding_controller))
                 = 1%Z) by reflexivity.
  exact (proj2 (zero_duration_frame_by_frame no_cos 0%Z _ Hrf Hfps) Hcnt).
Defined.

(** On the wall clock the rounding does not move the end of a segment of
    0.001 s either: one nanosecond before the millisecond is over the
    fraction fails the test [>= 1.0], and at the millisecond it passes it. *)
Lemma zero_duration_wall_clock_boundary
    (libm_cos : spec_float -> spec_float)
    (c : @Controller (ieee_arithmetic libm_cos)) :
  render_frame_by_frame_ c = false ->
  double_ge
    (fst (computeRelativeProgressInTime (transition_start_time_ c + 999999)
            Duration_0_001 c)) (double_of_int 1) = false /\
  double_ge
    (fst (computeRelativeProgressInTime (transition_start_time_ c + 1000000)
            Duration_0_001 c)) (double_of_int 1) = true.
Proof.
  intro Hrf. unfold computeRelativeProgressInTime. rewrite Hrf. cbn [fst].
  rewrite !Z.add_simpl_l. split; vm_compute; reflexivity.
Qed.
